(** * PyTransit: the Mandel-Agol and QPower2 model facades

    A shallow embedding of [src/src/mandelagol.py] (class [MandelAgol] and its
    presets [MAChromosphere], [MAUniform]) and of
    [src/pytransit/models/qpower2.py] (class [QPower2Model]).

    Python floats are idealised as canonical rationals ([Qc]); numpy arrays are
    a shape together with row-major data, as numpy stores them.  Exceptions are
    an error result, and the calls a method makes into the numerical back end
    are recorded in an event log threaded through a small monad, so that
    "which kernel ran, with which tables, and when" is an observable of the
    model. *)

From Stdlib Require Import String ZArith QArith Qcanon List Bool Lia.
Import ListNotations.

Set Implicit Arguments.

(* ------------------------------------------------------------------ *)
(** ** Python and numpy values *)

Module Py.

(** The exception classes the wrappers can meet. *)
Inductive Exn : Type :=
| AssertionError (msg : string)
| AttributeError (attr : string)
| ValueError (msg : string)
| IndexError (msg : string)
| BackendError (msg : string).

Inductive Result (A : Type) : Type :=
| Ok (a : A)
| Raise (e : Exn).
Arguments Raise {A} e.

(** Scalars that travel through keyword arguments. *)
Inductive value : Type :=
| VNone
| VBool (b : bool)
| VInt (n : Z)
| VFloat (x : Qc)
| VStr (s : string).

Definition Qc_is_zero (x : Qc) : bool := Qeq_bool x 0.

(** Python truthiness, as [if v:] and [v or w] read it. *)
Definition truthy (v : value) : bool :=
  match v with
  | VNone => false
  | VBool b => b
  | VInt n => negb (Z.eqb n 0)
  | VFloat x => negb (Qc_is_zero x)
  | VStr s => negb (String.eqb s EmptyString)
  end.

(** [a or b] returns [a] when it is truthy and [b] otherwise. *)
Definition py_or (a b : value) : value := if truthy a then a else b.

(** [d.get(key, default)] on a keyword dictionary. *)
Fixpoint dict_get (d : list (string * value)) (key : string) (default : value) : value :=
  match d with
  | [] => default
  | (k, v) :: d' => if String.eqb k key then v else dict_get d' key default
  end.

(** A numpy array: its shape and its elements in row-major order. *)
Record ndarray : Type := mk_ndarray { shape : list nat; data : list Qc }.

Definition size (a : ndarray) : nat := fold_right Nat.mul 1%nat (shape a).

Definition ravel (a : ndarray) : ndarray :=
  {| shape := [size a]; data := data a |}.

(** [numpy.squeeze]: every axis of length one is dropped. *)
Definition squeeze (a : ndarray) : ndarray :=
  {| shape := filter (fun d => negb (Nat.eqb d 1)) (shape a); data := data a |}.

Definition ones (n : nat) : ndarray :=
  {| shape := [n]; data := repeat 1%Qc n |}.

(** [numpy.array([[...], ...])] on a list of rows. *)
Definition array2 (rows : list (list Qc)) : ndarray :=
  {| shape := [List.length rows; List.length (hd [] rows)]; data := concat rows |}.

(** What the wrappers accept where the docstrings say "array": a float, a
    list of floats, or an array. *)
Inductive arraylike : Type :=
| AScalar (x : Qc)
| AList (xs : list Qc)
| ANd (a : ndarray).

Definition asarray (v : arraylike) : ndarray :=
  match v with
  | AScalar x => {| shape := []; data := [x] |}
  | AList xs => {| shape := [List.length xs]; data := xs |}
  | ANd a => a
  end.

(** [flux.shape[0]]: indexing the shape tuple of a 0-d array fails. *)
Definition shape0 (a : ndarray) : Result nat :=
  match shape a with
  | [] => Raise (IndexError "tuple index out of range")
  | d :: _ => Ok d
  end.

(** [a * numpy.ones(n)] under numpy's broadcasting of the last axis. *)
Definition mul_ones (a : ndarray) (n : nat) : Result ndarray :=
  let same := {| shape := shape a; data := map (fun x => (x * 1)%Qc) (data a) |} in
  let spread front :=
    {| shape := front ++ [n];
       data := flat_map (fun x => repeat (x * 1)%Qc n) (data a) |} in
  match rev (shape a) with
  | [] => Ok (spread [])
  | d :: front_rev =>
      if Nat.eqb d n then Ok same
      else if Nat.eqb d 1 then Ok (spread (rev front_rev))
      else if Nat.eqb n 1 then Ok same
      else Raise (ValueError "operands could not be broadcast together")
  end.

(** The error numpy raises for operands whose shapes do not broadcast. *)
Definition broadcast_error : Exn :=
  ValueError "operands could not be broadcast together".

(** *** Computations: a result and the log of back-end calls made so far *)

Section Monad.
Variable Ev : Type.

Definition M (A : Type) : Type := list Ev -> Result A * list Ev.

Definition ret {A} (a : A) : M A := fun log => (Ok a, log).

Definition bind {A B} (m : M A) (f : A -> M B) : M B :=
  fun log =>
    match m log with
    | (Ok a, log') => f a log'
    | (Raise e, log') => (Raise e, log')
    end.

Definition raise {A} (e : Exn) : M A := fun log => (Raise e, log).

Definition emit (ev : Ev) : M unit := fun log => (Ok tt, log ++ [ev]).

Definition lift {A} (r : Result A) : M A := fun log => (r, log).

(** [assert cond, msg] *)
Definition assert_ (cond : bool) (msg : string) : M unit :=
  if cond then ret tt else raise (AssertionError msg).
End Monad.

Arguments ret {Ev A} a.
Arguments raise {Ev A} e.
Arguments lift {Ev A} r.
Arguments assert_ {Ev} cond msg.

End Py.

Import Py.

Notation "x <- m ;; k" := (bind m (fun x => k))
  (at level 61, m at next level, right associativity).
Notation "m ;;; k" := (bind m (fun _ => k))
  (at level 61, right associativity).

(* ------------------------------------------------------------------ *)
(** ** [src/src/mandelagol.py] *)

Module mandelagol.

(** [MandelAgol.models] (line 30). *)
Definition models : list string :=
  ["uniform"; "quadratic"; "interpolated_quadratic"; "chromosphere"]%string.

(** The five arrays [ma.calculate_interpolation_tables] returns, in the
    order the constructor unpacks them: [ed, le, ld, kt, zt]. *)
Record Tables : Type :=
  mk_Tables { t_ed : ndarray; t_le : ndarray; t_ld : ndarray;
              t_kt : ndarray; t_zt : ndarray }.

(** The back end [pytransit.mandelagol_py], imported as [ma]: it is not part
    of the sources, so the facade is parametrised by it. *)
Record Backend : Type :=
  mk_Backend {
    eval_uniform : arraylike -> Qc -> arraylike -> Result ndarray;
    eval_chromosphere : arraylike -> Qc -> arraylike -> Result ndarray;
    eval_quad : arraylike -> Qc -> ndarray -> ndarray -> Result ndarray;
    eval_quad_ip : arraylike -> Qc -> ndarray -> ndarray ->
                   ndarray -> ndarray -> ndarray -> ndarray -> ndarray ->
                   Result ndarray;
    calculate_interpolation_tables : Qc -> Qc -> Z -> Z -> Result Tables
  }.

(** A call into the back end, with its actual arguments in source order. *)
Inductive KernelCall : Type :=
| CallUniform (z : arraylike) (k : Qc) (c : arraylike)
| CallChromosphere (z : arraylike) (k : Qc) (c : arraylike)
| CallQuad (z : arraylike) (k : Qc) (u c : ndarray)
| CallQuadIp (z : arraylike) (k : Qc) (u c : ndarray) (ed ld le kt zt : ndarray).

Inductive Event : Type :=
| SuperInit
| BuildTables (kmin kmax : Qc) (nk nz : Z)
| Kernel (call : KernelCall).

(** Reading a log: which kernels ran, and how often tables were built. *)
Inductive KernelName : Type :=
| K_eval_uniform
| K_eval_chromosphere
| K_eval_quad
| K_eval_quad_ip.

Definition kernel_of (call : KernelCall) : KernelName :=
  match call with
  | CallUniform _ _ _ => K_eval_uniform
  | CallChromosphere _ _ _ => K_eval_chromosphere
  | CallQuad _ _ _ _ => K_eval_quad
  | CallQuadIp _ _ _ _ _ _ _ _ _ => K_eval_quad_ip
  end.

Definition kernels_run (log : list Event) : list KernelName :=
  flat_map (fun ev => match ev with Kernel call => [kernel_of call] | _ => [] end) log.

Definition tables_built (log : list Event) : nat :=
  List.length (filter (fun ev => match ev with BuildTables _ _ _ _ => true | _ => false end) log).

(** The tables a call hands to the lookup kernel, if it is one. *)
Definition tables_passed (call : KernelCall) : option Tables :=
  match call with
  | CallQuadIp _ _ _ _ ed ld le kt zt => Some (mk_Tables ed le ld kt zt)
  | _ => None
  end.

(** The keyword arguments of [MandelAgol.__init__] (line 32); [kwargs] is
    the [**kwargs] dictionary. *)
Module Init.
Record Args : Type :=
  mk_Args {
    nldc : Z;
    nthr : Z;
    interpolate : value;
    supersampling : Z;
    exptime : Qc;
    eclipse : bool;
    klims : Qc * Qc;
    nk : Z;
    nz : Z;
    model : string;
    kwargs : list (string * value)
  }.

(** The defaults of the signature. *)
Definition defaults : Args :=
  {| nldc := 2; nthr := 0; interpolate := VBool false; supersampling := 1;
     exptime := Q2Qc (20433598 # 1000000000); eclipse := false;
     klims := (Q2Qc (7 # 100), Q2Qc (13 # 100)); nk := 128; nz := 256;
     model := "quadratic"; kwargs := [] |}.

(** Passing one keyword explicitly. *)
Definition set_model (name : string) (a : Args) : Args :=
  mk_Args (nldc a) (nthr a) (interpolate a) (supersampling a) (exptime a)
          (eclipse a) (klims a) (nk a) (nz a) name (kwargs a).

Definition set_nldc (n : Z) (a : Args) : Args :=
  mk_Args n (nthr a) (interpolate a) (supersampling a) (exptime a)
          (eclipse a) (klims a) (nk a) (nz a) (model a) (kwargs a).

Definition set_interpolate (v : value) (a : Args) : Args :=
  mk_Args (nldc a) (nthr a) v (supersampling a) (exptime a)
          (eclipse a) (klims a) (nk a) (nz a) (model a) (kwargs a).

Definition set_kwargs (kw : list (string * value)) (a : Args) : Args :=
  mk_Args (nldc a) (nthr a) (interpolate a) (supersampling a) (exptime a)
          (eclipse a) (klims a) (nk a) (nz a) (model a) kw.
End Init.

(** Which bound method [self._eval] holds. *)
Inductive EvalMethod : Type :=
| Bound_eval_uniform
| Bound_eval_chromosphere
| Bound_eval_quadratic.

(** The attributes lines 59-62 assign together, and nothing else assigns. *)
Record InterpAttrs : Type :=
  mk_InterpAttrs {
    ed : ndarray; le : ndarray; ld : ndarray; kt : ndarray; zt : ndarray;
    klims : Qc * Qc; nk : Z; nz : Z
  }.

(** The value line 50 stores in [self.interpolate]:
    [interpolate or kwargs.get('lerp', False)]. *)
Definition interpolate_flag (a : Init.Args) : value :=
  py_or (Init.interpolate a) (dict_get (Init.kwargs a) "lerp" (VBool false)).

(** The path condition of line 59: neither line 52 nor line 55 took the
    configuration, and line 58 holds. *)
Definition reaches_table_build (a : Init.Args) : bool :=
  negb (String.eqb (Init.model a) "chromosphere")
  && negb (String.eqb (Init.model a) "uniform" || Z.eqb (Init.nldc a) 0)
  && (String.eqb (Init.model a) "interpolated_quadratic"
      || truthy (interpolate_flag a)).

Section Facade.
(** The state [TransitModel.__init__] (module [.tm], not in the sources)
    sets up, and that constructor itself. *)
Variable TransitModel : Type.
Variable TransitModel_init :
  Z -> Z -> value -> Z -> Qc -> bool -> list (string * value) ->
  Result TransitModel.
Variable ma : Backend.

Record MandelAgol : Type :=
  mk_MandelAgol {
    super : TransitModel;
    interpolate : value;
    _eval : EvalMethod;
    interp : option InterpAttrs
  }.

(** What the back end answers to a call. *)
Definition answer (call : KernelCall) : Result ndarray :=
  match call with
  | CallUniform z k c => eval_uniform ma z k c
  | CallChromosphere z k c => eval_chromosphere ma z k c
  | CallQuad z k u c => eval_quad ma z k u c
  | CallQuadIp z k u c ed ld le kt zt =>
      eval_quad_ip ma z k u c ed ld le kt zt
  end.

(** Calling into the back end: the call is logged, then answered. *)
Definition invoke (call : KernelCall) : M Event ndarray :=
  emit (Kernel call) ;;; lift (answer call).

(** [MandelAgol.__init__] (lines 32-64). *)
Definition __init__ (a : Init.Args) : M Event MandelAgol :=
  assert_ (existsb (String.eqb (Init.model a)) models)
          ("Unknown MA model " ++ Init.model a) ;;;
  assert_ (existsb (Z.eqb (Init.nldc a)) [0; 2]%Z)
          "Number of limb darkening coefficients must be either 0 or 2" ;;;
  emit SuperInit ;;;
  base <- lift (TransitModel_init (Init.nldc a) (Init.nthr a)
                  (Init.interpolate a) (Init.supersampling a)
                  (Init.exptime a) (Init.eclipse a) (Init.kwargs a)) ;;
  let flag := interpolate_flag a in
  if String.eqb (Init.model a) "chromosphere" then
    ret (mk_MandelAgol base flag Bound_eval_chromosphere None)
  else if String.eqb (Init.model a) "uniform" || Z.eqb (Init.nldc a) 0 then
    ret (mk_MandelAgol base flag Bound_eval_uniform None)
  else
    tabs <- (if String.eqb (Init.model a) "interpolated_quadratic" || truthy flag
             then
               emit (BuildTables (fst (Init.klims a)) (snd (Init.klims a))
                                 (Init.nk a) (Init.nz a)) ;;;
               t <- lift (calculate_interpolation_tables ma
                            (fst (Init.klims a)) (snd (Init.klims a))
                            (Init.nk a) (Init.nz a)) ;;
               ret (Some (mk_InterpAttrs (t_ed t) (t_le t) (t_ld t)
                                         (t_kt t) (t_zt t)
                                         (Init.klims a) (Init.nk a) (Init.nz a)))
             else ret None) ;;
    ret (mk_MandelAgol base flag Bound_eval_quadratic tabs).

(** [_eval_uniform] (lines 67-80): [u] is not passed on. *)
Definition _eval_uniform (self : MandelAgol) (z : arraylike) (k : Qc)
           (u c : arraylike) : M Event ndarray :=
  invoke (CallUniform z k c).

(** [_eval_chromosphere] (lines 83-94): [u] is not passed on. *)
Definition _eval_chromosphere (self : MandelAgol) (z : arraylike) (k : Qc)
           (u c : arraylike) : M Event ndarray :=
  invoke (CallChromosphere z k c).

(** Reading one of [self.ed], ..., [self.zt]. *)
Definition tables_of (self : MandelAgol) : M Event InterpAttrs :=
  match interp self with
  | Some t => ret t
  | None => raise (AttributeError "ed")
  end.

(** Lines 110-111: [c] is kept when it is an array of [npb] elements and
    is multiplied by [np.ones(npb)] otherwise. *)
Definition per_passband (c : arraylike) (npb : nat) : Result ndarray :=
  match c with
  | ANd a => if Nat.eqb (size a) npb then Ok a else mul_ones a npb
  | _ => mul_ones (asarray c) npb
  end.

(** [_eval_quadratic] (lines 97-116). *)
Definition _eval_quadratic (self : MandelAgol) (z : arraylike) (k : Qc)
           (u c : arraylike) : M Event ndarray :=
  let u := ravel (asarray u) in
  let npb := Nat.div (size u) 2 in
  c <- lift (per_passband c npb) ;;
  if truthy (interpolate self) then
    t <- tables_of self ;;
    invoke (CallQuadIp z k u c (ed t) (ld t) (le t) (kt t) (zt t))
  else
    invoke (CallQuad z k u c).

(** The call [self._eval(z, k, u, c)]. *)
Definition call_eval (self : MandelAgol) (z : arraylike) (k : Qc)
           (u c : arraylike) : M Event ndarray :=
  match _eval self with
  | Bound_eval_uniform => _eval_uniform self z k u c
  | Bound_eval_chromosphere => _eval_chromosphere self z k u c
  | Bound_eval_quadratic => _eval_quadratic self z k u c
  end.

(** Line 135: [flux.ravel() if flux.shape[0] == 1 else flux]. *)
Definition ravel_single (flux : ndarray) : Result ndarray :=
  match shape0 flux with
  | Ok d0 => Ok (if Nat.eqb d0 1 then ravel flux else flux)
  | Raise e => Raise e
  end.

(** [MandelAgol.__call__] (lines 119-135). *)
Definition __call__ (self : MandelAgol) (z : arraylike) (k : Qc)
           (u c : arraylike) : M Event ndarray :=
  flux <- call_eval self z k u c ;;
  lift (ravel_single flux).

(** [MAChromosphere.__init__] (lines 140-141). *)
Definition MAChromosphere__init__ (nthr supersampling : Z) (exptime : Qc)
  : M Event MandelAgol :=
  __init__ {| Init.nldc := Init.nldc Init.defaults;
              Init.nthr := nthr;
              Init.interpolate := Init.interpolate Init.defaults;
              Init.supersampling := supersampling;
              Init.exptime := exptime;
              Init.eclipse := Init.eclipse Init.defaults;
              Init.klims := Init.klims Init.defaults;
              Init.nk := Init.nk Init.defaults;
              Init.nz := Init.nz Init.defaults;
              Init.model := "chromosphere";
              Init.kwargs := [] |}.

(** [MAChromosphere.__call__] (lines 143-144): an empty coefficient list,
    and the result of [_eval] as it comes. *)
Definition MAChromosphere__call__ (self : MandelAgol) (z : arraylike)
           (k : Qc) (c : arraylike) : M Event ndarray :=
  call_eval self z k (AList []) c.

(** [MAUniform.__init__] (lines 152-153). *)
Definition MAUniform__init__ (nthr supersampling : Z) (exptime : Qc)
           (eclipse : bool) : M Event MandelAgol :=
  __init__ {| Init.nldc := 0;
              Init.nthr := nthr;
              Init.interpolate := Init.interpolate Init.defaults;
              Init.supersampling := supersampling;
              Init.exptime := exptime;
              Init.eclipse := eclipse;
              Init.klims := Init.klims Init.defaults;
              Init.nk := Init.nk Init.defaults;
              Init.nz := Init.nz Init.defaults;
              Init.model := "uniform";
              Init.kwargs := [] |}.

(** An evaluation of [self] reaches the back end through kernel [K] only:
    it makes one call, to [K], or it raises before calling anything. *)
Definition runs_only (self : MandelAgol) (K : KernelName) : Prop :=
  forall (z : arraylike) (k : Qc) (u c : arraylike) (log : list Event),
  exists (r : Result ndarray) (evs : list Event),
    __call__ self z k u c log = (r, log ++ evs)
    /\ ((evs = [] /\ exists e, r = Raise e)
        \/ (exists call, evs = [Kernel call] /\ kernel_of call = K)).
End Facade.

Section Evaluate.
(** [TransitModel.evaluate] (module [.tm], not in the sources), which
    [MandelAgol] inherits, with the nine arguments line 147 gives it:
    [(t, k, u, t0, p, a, i, e, w)]. *)
Variable TransitModel : Type.
Variable TransitModel_evaluate :
  MandelAgol TransitModel -> arraylike -> Qc -> arraylike ->
  Qc -> Qc -> Qc -> Qc -> Qc -> Qc -> M Event ndarray.

(** [MAChromosphere.evaluate] (lines 146-147): the coefficient list is
    empty, and the contamination [c] it accepts is not handed on. *)
Definition MAChromosphere_evaluate (self : MandelAgol TransitModel)
           (t : arraylike) (k t0 p a i e w : Qc) (c : arraylike)
  : M Event ndarray :=
  TransitModel_evaluate self t k (AList []) t0 p a i e w.
End Evaluate.

End mandelagol.

(* ------------------------------------------------------------------ *)
(** ** [src/pytransit/models/qpower2.py] *)

Module qpower2.

(** The attributes of the base class [TransitModel] (module
    [.transitmodel], not in the sources) that the two methods read.
    [time] is [None] until the data is set. *)
Record QPower2Model : Type :=
  mk_QPower2Model {
    time : option ndarray;
    lcids : ndarray;
    pbids : ndarray;
    nsamples : ndarray;
    exptimes : ndarray;
    _es : ndarray;
    _ms : ndarray;
    _tae : ndarray
  }.

(** One call of the numba kernel [qpower2_model], arguments in source order. *)
Inductive Event : Type :=
| Kernel (time pvp ldc lcids pbids nsamples exptimes es ms tae : ndarray).

Definition not_configured : string :=
  "Need to set the data before calling the transit model.".

Section Model.
(** [qpower2_model] of [.numba.qpower2_nb], not in the sources. *)
Variable qpower2_model :
  ndarray -> ndarray -> ndarray -> ndarray -> ndarray -> ndarray ->
  ndarray -> ndarray -> ndarray -> ndarray -> Result ndarray.

(** The shared line [flux = qpower2_model(self.time, pvp, ldc, ...)]. *)
Definition call_kernel (self : QPower2Model) (t pvp ldc : ndarray)
  : M Event ndarray :=
  emit (Kernel t pvp ldc (lcids self) (pbids self) (nsamples self)
               (exptimes self) (_es self) (_ms self) (_tae self)) ;;;
  lift (qpower2_model t pvp ldc (lcids self) (pbids self) (nsamples self)
                      (exptimes self) (_es self) (_ms self) (_tae self)).

(** [assert self.time is not None, "..."], handing on the time array. *)
Definition assert_time (self : QPower2Model) : M Event ndarray :=
  match time self with
  | None => raise (AssertionError not_configured)
  | Some t => ret t
  end.

(** [evaluate_ps] (lines 46-50). *)
Definition evaluate_ps (self : QPower2Model) (k : Qc) (ldc : ndarray)
           (t0 p a i e w : Qc) : M Event ndarray :=
  t <- assert_time self ;;
  let pvp := array2 [[k; t0; p; a; i; e; w]] in
  flux <- call_kernel self t pvp ldc ;;
  ret (squeeze flux).

(** [evaluate_pv] (lines 52-55). *)
Definition evaluate_pv (self : QPower2Model) (pvp ldc : ndarray)
  : M Event ndarray :=
  t <- assert_time self ;;
  flux <- call_kernel self t pvp ldc ;;
  ret (squeeze flux).
End Model.

End qpower2.

(* ------------------------------------------------------------------ *)
(** ** The numerical engine, as the specification describes it *)

Module engine.

(** Decidable order on [Qc]. *)
Definition Qcleb (x y : Qc) : bool := Qle_bool x y.

Definition clip01 (x : Qc) : Qc :=
  if Qcleb x 0 then 0 else if Qcleb 1 x then 1 else x.

(** The model variants the engine supports. *)
Inductive Variant : Type :=
| Uniform
| Quadratic
| InterpolatedQuadratic
| Power2
| Chromosphere.

Section Kernels.
(** Modelled from the spec: the analytic kernels ([eval_uniform],
    [eval_quad], [eval_quad_ip], [eval_chromosphere] of
    [pytransit.mandelagol_py] and [qpower2_model] of [.numba.qpower2_nb])
    are missing from the sources.  Section 4.2 gives their shape: a last
    branch [z >= 1+k] without occultation, closed forms on the branches
    below it, and contamination applied as a final affine step.  The
    closed forms themselves (intersection area, elliptic integrals, the
    power-2 series, the table lookup) are left as parameters:
    [overlap_loss z k] is the normalised intersection area of the two
    discs, [closed_form v z k u] the undiluted flux of a limb-darkened
    variant where the discs overlap. *)
Variable overlap_loss : Qc -> Qc -> Qc.
Variable closed_form : Variant -> Qc -> Qc -> list Qc -> Qc.

(** Modelled from the spec: the undiluted flux of one kernel at one
    separation.  The uniform disc and the chromosphere ignore the
    limb-darkening coefficients and lose the intersection area clipped to
    [0,1]; the others evaluate their closed form. *)
Definition flux_model (v : Variant) (z k : Qc) (u : list Qc) : Qc :=
  if Qcleb (1 + k) z then 1
  else match v with
       | Uniform | Chromosphere => 1 - clip01 (overlap_loss z k)
       | Quadratic | InterpolatedQuadratic | Power2 => closed_form v z k u
       end.

(** Modelled from the spec: [flux_observed = 1 - (1 - flux_model) * (1 - c)]. *)
Definition dilute (flux_model c : Qc) : Qc := 1 - (1 - flux_model) * (1 - c).

(** Modelled from the spec: the kernel interface [flux(z, k, u, c)]. *)
Definition flux (v : Variant) (z k : Qc) (u : list Qc) (c : Qc) : Qc :=
  dilute (flux_model v z k u) c.

(** Modelled from the spec: the data flow of section 2, time to
    separation to flux; [sep] is the orbit solver's separation at a
    time, for fixed orbital parameters. *)
Definition light_curve (sep : Qc -> Qc) (v : Variant) (k : Qc)
           (u : list Qc) (c : Qc) (t : Qc) : Qc :=
  flux v (sep t) k u c.
End Kernels.

(** A count as a rational. *)
Definition Qc_of_nat (n : nat) : Qc := Q2Qc (inject_Z (Z.of_nat n)).

(** Modelled from the spec: the exposure integrator of section 4.4, which
    the sources only configure ([supersampling], [exptime], [nsamples],
    [exptimes]).  The [n] sub-times are the centres of [n] equal parts of
    the exposure [[t - d/2, t + d/2]], so they are evenly spaced and keep
    the midpoint [t] as their mean. *)
Definition subtimes (t d : Qc) (n : nat) : list Qc :=
  map (fun j => t - d / Q2Qc 2 + (Qc_of_nat j + 1 / Q2Qc 2) * (d / Qc_of_nat n))
      (seq 0 n).

(** Modelled from the spec: the arithmetic mean section 4.4 reports. *)
Definition mean (xs : list Qc) : Qc :=
  fold_right Qcplus 0 xs / Qc_of_nat (List.length xs).

(** Modelled from the spec: evaluate the model at each sub-time and report
    the arithmetic mean. *)
Definition supersample (lc : Qc -> Qc) (t d : Qc) (n : nat) : Qc :=
  mean (map lc (subtimes t d n)).

End engine.

(* ------------------------------------------------------------------ *)
(** ** Stand-ins for the missing collaborators, to run the facades *)

Module standin.

(** A base-class constructor that accepts everything and stores nothing. *)
Definition TransitModel_init (nldc nthr : Z) (interpolate : value)
           (supersampling : Z) (exptime : Qc) (eclipse : bool)
           (kwargs : list (string * value)) : Result unit := Ok tt.

(** One row of flux, one entry per separation, every entry [x]. *)
Definition flat_flux (x : Qc) (z : arraylike) : ndarray :=
  {| shape := [1%nat; List.length (data (asarray z))];
     data := map (fun _ => x) (data (asarray z)) |}.

Definition no_table : ndarray := {| shape := [0%nat]; data := [] |}.

(** A back end whose kernels answer with a full-flux row. *)
Definition ma : mandelagol.Backend :=
  {| mandelagol.eval_uniform := fun z _ _ => Ok (flat_flux 1 z);
     mandelagol.eval_chromosphere := fun z _ _ => Ok (flat_flux 1 z);
     mandelagol.eval_quad := fun z _ _ _ => Ok (flat_flux 1 z);
     mandelagol.eval_quad_ip := fun z _ _ _ _ _ _ _ _ => Ok (flat_flux 1 z);
     mandelagol.calculate_interpolation_tables :=
       fun _ _ _ _ =>
         Ok (mandelagol.mk_Tables no_table no_table no_table no_table no_table) |}.

(** A [qpower2_model] that answers one row of full flux per parameter
    vector. *)
Definition qpower2_model (time pvp ldc lcids pbids nsamples exptimes es ms tae : ndarray)
  : Result ndarray :=
  Ok {| shape := [hd 0%nat (shape pvp); size time];
        data := repeat 1%Qc (hd 0%nat (shape pvp) * size time) |}.

(** A model without data, and the same model once three times are set. *)
Definition fresh : qpower2.QPower2Model :=
  {| qpower2.time := None;
     qpower2.lcids := no_table; qpower2.pbids := no_table;
     qpower2.nsamples := no_table; qpower2.exptimes := no_table;
     qpower2._es := no_table; qpower2._ms := no_table; qpower2._tae := no_table |}.

Definition third : Qc := Q2Qc (1 # 3).
Definition tenth : Qc := Q2Qc (1 # 10).
Definition half : Qc := Q2Qc (1 # 2).
Definition two : Qc := Q2Qc 2.

(** The loss of a small disc lying wholly on the stellar disc: [k^2]. *)
Definition overlap_loss (z k : Qc) : Qc := k * k.

(** A limb-darkened closed form that, for the runs below, only needs to be
    some flux under one: the same loss of [k^2]. *)
Definition closed_form (v : engine.Variant) (z k : Qc) (u : list Qc) : Qc :=
  1 - k * k.

(** A limb-darkened closed form above full flux: the same small disc over
    a patch of negative intensity, as the quadratic law has at the limb for
    [u1 + u2 > 1], so that the loss of [k^2] turns into a gain. *)
Definition brightening_form (v : engine.Variant) (z k : Qc) (u : list Qc) : Qc :=
  1 + k * k.

(** What the default configuration stores and logs when it builds tables
    on the stand-in back end. *)
Definition stored_tables : mandelagol.InterpAttrs :=
  mandelagol.mk_InterpAttrs no_table no_table no_table no_table no_table
    (Q2Qc (7 # 100), Q2Qc (13 # 100)) 128 256.

Definition table_log : list mandelagol.Event :=
  [mandelagol.SuperInit;
   mandelagol.BuildTables (Q2Qc (7 # 100)) (Q2Qc (13 # 100)) 128 256].

Definition with_data : qpower2.QPower2Model :=
  {| qpower2.time := Some {| shape := [3%nat]; data := [0; third; 1] |};
     qpower2.lcids := ones 3; qpower2.pbids := ones 1;
     qpower2.nsamples := ones 1; qpower2.exptimes := ones 1;
     qpower2._es := no_table; qpower2._ms := no_table; qpower2._tae := no_table |}.

(** A base-class constructor that refuses everything. *)
Definition failing_init (nldc nthr : Z) (interpolate : value)
           (supersampling : Z) (exptime : Qc) (eclipse : bool)
           (kwargs : list (string * value)) : Result unit :=
  Raise (BackendError "TransitModel").

(** A back end whose table builder fails. *)
Definition ma_without_tables : mandelagol.Backend :=
  {| mandelagol.eval_uniform := mandelagol.eval_uniform ma;
     mandelagol.eval_chromosphere := mandelagol.eval_chromosphere ma;
     mandelagol.eval_quad := mandelagol.eval_quad ma;
     mandelagol.eval_quad_ip := mandelagol.eval_quad_ip ma;
     mandelagol.calculate_interpolation_tables :=
       fun _ _ _ _ => Raise (BackendError "tables") |}.

(** A back end whose kernels fail. *)
Definition ma_raising : mandelagol.Backend :=
  {| mandelagol.eval_uniform := fun _ _ _ => Raise (BackendError "kernel");
     mandelagol.eval_chromosphere := fun _ _ _ => Raise (BackendError "kernel");
     mandelagol.eval_quad := fun _ _ _ _ => Raise (BackendError "kernel");
     mandelagol.eval_quad_ip :=
       fun _ _ _ _ _ _ _ _ _ => Raise (BackendError "kernel");
     mandelagol.calculate_interpolation_tables :=
       mandelagol.calculate_interpolation_tables ma |}.

(** A back end whose kernels answer with a 0-d array. *)
Definition point_flux : ndarray := {| shape := []; data := [1] |}.

Definition ma_point : mandelagol.Backend :=
  {| mandelagol.eval_uniform := fun _ _ _ => Ok point_flux;
     mandelagol.eval_chromosphere := fun _ _ _ => Ok point_flux;
     mandelagol.eval_quad := fun _ _ _ _ => Ok point_flux;
     mandelagol.eval_quad_ip := fun _ _ _ _ _ _ _ _ _ => Ok point_flux;
     mandelagol.calculate_interpolation_tables :=
       mandelagol.calculate_interpolation_tables ma |}.

(** The models the default, the uniform and the chromosphere configuration
    construct on the accepting base class. *)
Definition quadratic_model : mandelagol.MandelAgol unit :=
  mandelagol.mk_MandelAgol tt (VBool false) mandelagol.Bound_eval_quadratic None.

Definition lookup_model : mandelagol.MandelAgol unit :=
  mandelagol.mk_MandelAgol tt (VBool true) mandelagol.Bound_eval_quadratic
                           (Some stored_tables).

Definition uniform_model : mandelagol.MandelAgol unit :=
  mandelagol.mk_MandelAgol tt (VBool false) mandelagol.Bound_eval_uniform None.

Definition chromosphere_model : mandelagol.MandelAgol unit :=
  mandelagol.mk_MandelAgol tt (VBool false) mandelagol.Bound_eval_chromosphere None.

(** A [qpower2_model] that fails. *)
Definition qpower2_raising (time pvp ldc lcids pbids nsamples exptimes es ms tae : ndarray)
  : Result ndarray := Raise (BackendError "kernel").

End standin.

(* ------------------------------------------------------------------ *)
(** * Properties *)

(** A closed rational constant is not zero. *)
Ltac qc_nonzero :=
  let H := fresh in
  intros H; apply (f_equal this) in H; vm_compute in H; discriminate H.

(** ** The log monad *)

Section MonadFacts.
Variable Ev : Type.

Lemma bind_raise A B (m : M Ev A) (f : A -> M Ev B) log e log' :
  m log = (Raise e, log') -> bind m f log = (Raise e, log').
Proof. intros H. unfold bind. now rewrite H. Qed.
End MonadFacts.

(** ** [MandelAgol]: configuration errors *)

Section ConstructorChecks.
Import mandelagol.
Variable TransitModel : Type.
Variable TransitModel_init :
  Z -> Z -> value -> Z -> Qc -> bool -> list (string * value) ->
  Result TransitModel.
Variable ma : Backend.

Lemma model_known_iff (name : string) :
  existsb (String.eqb name) models = true <-> In name models.
Proof.
  rewrite existsb_exists. split.
  - intros [x [Hin Heq]]. apply String.eqb_eq in Heq. now subst.
  - intros Hin. exists name. split; [assumption | apply String.eqb_refl].
Qed.

Lemma nldc_allowed_iff (n : Z) :
  existsb (Z.eqb n) [0; 2]%Z = true <-> (n = 0 \/ n = 2)%Z.
Proof.
  simpl. rewrite !orb_true_iff, !Z.eqb_eq. intuition discriminate.
Qed.

Lemma unknown_model_raises (a : Init.Args) (log : list Event) :
  ~ In (Init.model a) models ->
  __init__ TransitModel_init ma a log
  = (Raise (AssertionError ("Unknown MA model " ++ Init.model a)), log).
Proof.
  intros Hnot. unfold __init__.
  destruct (existsb (String.eqb (Init.model a)) models) eqn:E.
  - apply model_known_iff in E. contradiction.
  - reflexivity.
Qed.

Lemma bad_nldc_raises (a : Init.Args) (log : list Event) :
  In (Init.model a) models ->
  (Init.nldc a <> 0)%Z -> (Init.nldc a <> 2)%Z ->
  __init__ TransitModel_init ma a log
  = (Raise (AssertionError
              "Number of limb darkening coefficients must be either 0 or 2"),
     log).
Proof.
  intros Hin H0 H2. unfold __init__.
  apply model_known_iff in Hin. rewrite Hin.
  destruct (existsb (Z.eqb (Init.nldc a)) [0; 2]%Z) eqn:E.
  - apply nldc_allowed_iff in E. lia.
  - reflexivity.
Qed.

(** C3. A model name outside [MandelAgol.models] makes the constructor raise
    the assertion error "Unknown MA model <name>"; a supported name with a
    coefficient count other than 0 and 2 makes it raise the assertion error
    "Number of limb darkening coefficients must be either 0 or 2".  In both
    cases no model object is returned and the log is untouched: the
    base-class constructor has not run, no table has been built and no
    kernel has been called.  The two messages differ. *)
Theorem init_rejects_bad_configuration (a : Init.Args) (log : list Event) :
  (~ In (Init.model a) models ->
   __init__ TransitModel_init ma a log
   = (Raise (AssertionError ("Unknown MA model " ++ Init.model a)), log))
  /\ (In (Init.model a) models ->
      (Init.nldc a <> 0)%Z -> (Init.nldc a <> 2)%Z ->
      __init__ TransitModel_init ma a log
      = (Raise (AssertionError
                  "Number of limb darkening coefficients must be either 0 or 2"),
         log))
  /\ ("Unknown MA model " ++ Init.model a
      <> "Number of limb darkening coefficients must be either 0 or 2")%string.
Proof.
  split; [apply unknown_model_raises |].
  split; [apply bad_nldc_raises |].
  simpl. discriminate.
Qed.
End ConstructorChecks.

Lemma init_rejects_bad_configuration_witness :
  mandelagol.__init__ standin.TransitModel_init standin.ma
    (mandelagol.Init.set_model "power2" mandelagol.Init.defaults) []
  = (Raise (AssertionError "Unknown MA model power2"), [])
  /\ mandelagol.__init__ standin.TransitModel_init standin.ma
       (mandelagol.Init.set_nldc 4 mandelagol.Init.defaults) []
     = (Raise (AssertionError
                 "Number of limb darkening coefficients must be either 0 or 2"),
        []).
Proof.
  destruct (init_rejects_bad_configuration standin.TransitModel_init standin.ma
              (mandelagol.Init.set_model "power2" mandelagol.Init.defaults) [])
    as [Hname _].
  destruct (init_rejects_bad_configuration standin.TransitModel_init standin.ma
              (mandelagol.Init.set_nldc 4 mandelagol.Init.defaults) [])
    as [_ [Hcount _]].
  split.
  - apply Hname. simpl. intuition discriminate.
  - apply Hcount; simpl; [tauto | discriminate | discriminate].
Defined.

(** ** [QPower2Model]: the two evaluation methods *)

Section QPower2Facts.
Import qpower2.
Variable qpower2_model :
  ndarray -> ndarray -> ndarray -> ndarray -> ndarray -> ndarray ->
  ndarray -> ndarray -> ndarray -> ndarray -> Result ndarray.

Lemma assert_time_unset (self : QPower2Model) (log : list Event) :
  time self = None ->
  assert_time self log = (Raise (AssertionError not_configured), log).
Proof. intros H. unfold assert_time. now rewrite H. Qed.

Lemma assert_time_set (self : QPower2Model) (t : ndarray) (log : list Event) :
  time self = Some t -> assert_time self log = (Ok t, log).
Proof. intros H. unfold assert_time. now rewrite H. Qed.

(** What [evaluate_pv] does once the data is set: one kernel call on the
    stored arrays, its flux squeezed, its exception passed on. *)
Lemma evaluate_pv_with_data (self : QPower2Model) (t pvp ldc : ndarray)
      (log : list Event) :
  time self = Some t ->
  evaluate_pv qpower2_model self pvp ldc log
  = (match qpower2_model t pvp ldc (lcids self) (pbids self) (nsamples self)
                         (exptimes self) (_es self) (_ms self) (_tae self) with
     | Ok flux => Ok (squeeze flux)
     | Raise e => Raise e
     end,
     log ++ [Kernel t pvp ldc (lcids self) (pbids self) (nsamples self)
                    (exptimes self) (_es self) (_ms self) (_tae self)]).
Proof.
  intros H. unfold evaluate_pv, bind.
  rewrite (assert_time_set self log H).
  unfold call_kernel, bind, emit, lift, ret.
  now destruct (qpower2_model _ _ _ _ _ _ _ _ _ _).
Qed.

(** C4. On a model whose time array is still [None], [evaluate_ps] and
    [evaluate_pv] raise the assertion error "Need to set the data before
    calling the transit model." for all arguments; nothing is returned and
    the log is untouched, so the kernel has not been called. *)
Theorem evaluate_without_data_raises (self : QPower2Model) (log : list Event) :
  time self = None ->
  (forall (k : Qc) (ldc : ndarray) (t0 p a i e w : Qc),
      evaluate_ps qpower2_model self k ldc t0 p a i e w log
      = (Raise (AssertionError not_configured), log))
  /\ (forall pvp ldc : ndarray,
         evaluate_pv qpower2_model self pvp ldc log
         = (Raise (AssertionError not_configured), log)).
Proof.
  intros H. split; intros; unfold evaluate_ps, evaluate_pv;
    apply bind_raise; now apply assert_time_unset.
Qed.

(** C10. [evaluate_ps] on scalars is [evaluate_pv] on the one-row batch
    [[k, t0, p, a, i, e, w]] with the same coefficients: same result (flux
    or exception) and same kernel call, from every log; the batch has
    shape (1, 7). *)
Theorem evaluate_ps_is_evaluate_pv_on_one_row
        (self : QPower2Model) (k : Qc) (ldc : ndarray) (t0 p a i e w : Qc) :
  evaluate_ps qpower2_model self k ldc t0 p a i e w
  = evaluate_pv qpower2_model self (array2 [[k; t0; p; a; i; e; w]]) ldc
  /\ shape (array2 [[k; t0; p; a; i; e; w]]) = [1; 7]%nat.
Proof. split; reflexivity. Qed.
End QPower2Facts.

Lemma evaluate_without_data_raises_witness :
  qpower2.evaluate_ps standin.qpower2_model standin.fresh
    standin.third (ones 2) 0 1 1 1 0 0 []
  = (Raise (AssertionError qpower2.not_configured), [])
  /\ qpower2.evaluate_pv standin.qpower2_model standin.fresh
       (array2 [[standin.third; 0; 1; 1; 1; 0; 0]]) (ones 2) []
     = (Raise (AssertionError qpower2.not_configured), []).
Proof.
  destruct (evaluate_without_data_raises standin.qpower2_model standin.fresh []
              eq_refl) as [Hps Hpv].
  split; [apply Hps | apply Hpv].
Defined.

(** ** [MandelAgol]: what the constructor binds and what evaluations call *)

Section Dispatch.
Import mandelagol.
Variable TransitModel : Type.
Variable TransitModel_init :
  Z -> Z -> value -> Z -> Qc -> bool -> list (string * value) ->
  Result TransitModel.
Variable ma : Backend.

Local Abbreviation init := (__init__ TransitModel_init ma).
Local Abbreviation Model := (MandelAgol TransitModel).

(** The object a successful constructor returns and the events it logs,
    branch by branch (lines 52, 55, 58). *)
Lemma init_ok_inv (a : Init.Args) (log0 log1 : list Event) (m : Model) :
  init a log0 = (Ok m, log1) ->
  exists base,
    TransitModel_init (Init.nldc a) (Init.nthr a) (Init.interpolate a)
                      (Init.supersampling a) (Init.exptime a)
                      (Init.eclipse a) (Init.kwargs a) = Ok base
    /\ if String.eqb (Init.model a) "chromosphere" then
         m = mk_MandelAgol base (interpolate_flag a) Bound_eval_chromosphere None
         /\ log1 = log0 ++ [SuperInit]
       else if String.eqb (Init.model a) "uniform" || Z.eqb (Init.nldc a) 0 then
         m = mk_MandelAgol base (interpolate_flag a) Bound_eval_uniform None
         /\ log1 = log0 ++ [SuperInit]
       else if String.eqb (Init.model a) "interpolated_quadratic"
               || truthy (interpolate_flag a) then
         exists t,
           calculate_interpolation_tables ma (fst (Init.klims a))
               (snd (Init.klims a)) (Init.nk a) (Init.nz a) = Ok t
           /\ m = mk_MandelAgol base (interpolate_flag a) Bound_eval_quadratic
                    (Some (mk_InterpAttrs (t_ed t) (t_le t) (t_ld t) (t_kt t)
                             (t_zt t) (Init.klims a) (Init.nk a) (Init.nz a)))
           /\ log1 = log0 ++ [SuperInit;
                              BuildTables (fst (Init.klims a)) (snd (Init.klims a))
                                          (Init.nk a) (Init.nz a)]
       else
         m = mk_MandelAgol base (interpolate_flag a) Bound_eval_quadratic None
         /\ log1 = log0 ++ [SuperInit].
Proof.
  unfold __init__, bind, assert_, emit, lift, ret, raise.
  destruct (existsb (String.eqb (Init.model a)) models); [| discriminate].
  destruct (existsb (Z.eqb (Init.nldc a)) [0; 2]%Z); [| discriminate].
  destruct (TransitModel_init _ _ _ _ _ _ _) as [base | e]; [| discriminate].
  intros H. exists base. split; [reflexivity |].
  destruct (String.eqb (Init.model a) "chromosphere").
  - injection H as <- <-. now split.
  - destruct (String.eqb (Init.model a) "uniform" || Z.eqb (Init.nldc a) 0).
    + injection H as <- <-. now split.
    + destruct (String.eqb (Init.model a) "interpolated_quadratic"
                || truthy (interpolate_flag a)).
      * destruct (calculate_interpolation_tables ma _ _ _ _) as [t | e];
          [| discriminate].
        injection H as <- <-. exists t. repeat split.
        now rewrite <- app_assoc.
      * injection H as <- <-. now split.
Qed.

Lemma invoke_logs (call : KernelCall) (log : list Event) :
  invoke ma call log = (answer ma call, log ++ [Kernel call]).
Proof. reflexivity. Qed.

(** The tail of [__call__] after a kernel call. *)
Lemma call_after_invoke (m : Model) z k u c log (call : KernelCall) :
  call_eval ma m z k u c log = (answer ma call, log ++ [Kernel call]) ->
  __call__ ma m z k u c log
  = (match answer ma call with
     | Ok flux => ravel_single flux
     | Raise e => Raise e
     end, log ++ [Kernel call]).
Proof.
  intros H. unfold __call__, bind. rewrite H.
  now destruct (answer ma call).
Qed.

(** A model bound to [_eval_uniform] calls [ma.eval_uniform(z, k, c)]. *)
Lemma call_uniform (m : Model) z k u c log :
  _eval m = Bound_eval_uniform ->
  __call__ ma m z k u c log
  = (match eval_uniform ma z k c with
     | Ok flux => ravel_single flux
     | Raise e => Raise e
     end, log ++ [Kernel (CallUniform z k c)]).
Proof.
  intros H. apply (call_after_invoke m z k u c log (CallUniform z k c)).
  unfold call_eval. now rewrite H.
Qed.

(** A model bound to [_eval_chromosphere] calls
    [ma.eval_chromosphere(z, k, c)]. *)
Lemma call_chromosphere (m : Model) z k u c log :
  _eval m = Bound_eval_chromosphere ->
  __call__ ma m z k u c log
  = (match eval_chromosphere ma z k c with
     | Ok flux => ravel_single flux
     | Raise e => Raise e
     end, log ++ [Kernel (CallChromosphere z k c)]).
Proof.
  intros H. apply (call_after_invoke m z k u c log (CallChromosphere z k c)).
  unfold call_eval. now rewrite H.
Qed.

(** A model bound to [_eval_quadratic]: the three ways an evaluation goes. *)
Lemma call_quadratic (m : Model) z k u c log :
  _eval m = Bound_eval_quadratic ->
  let u' := ravel (asarray u) in
  match per_passband c (Nat.div (size u') 2) with
  | Raise e => __call__ ma m z k u c log = (Raise e, log)
  | Ok c' =>
      if truthy (interpolate m) then
        match interp m with
        | None => __call__ ma m z k u c log = (Raise (AttributeError "ed"), log)
        | Some t =>
            let call := CallQuadIp z k u' c' (ed t) (ld t) (le t) (kt t) (zt t) in
            __call__ ma m z k u c log
            = (match answer ma call with
               | Ok flux => ravel_single flux
               | Raise e => Raise e
               end, log ++ [Kernel call])
        end
      else
        let call := CallQuad z k u' c' in
        __call__ ma m z k u c log
        = (match answer ma call with
           | Ok flux => ravel_single flux
           | Raise e => Raise e
           end, log ++ [Kernel call])
  end.
Proof.
  intros H u'.
  destruct (per_passband c (Nat.div (size u') 2)) as [c' | e] eqn:Hc.
  - destruct (truthy (interpolate m)) eqn:Hflag.
    + destruct (interp m) as [t |] eqn:Ht.
      * cbv zeta. apply call_after_invoke.
        unfold call_eval, _eval_quadratic, bind, lift, tables_of. rewrite H.
        fold u'. rewrite Hc, Hflag, Ht. reflexivity.
      * unfold __call__, call_eval, _eval_quadratic, bind, lift, tables_of.
        rewrite H. fold u'. rewrite Hc, Hflag, Ht. reflexivity.
    + cbv zeta. apply call_after_invoke.
      unfold call_eval, _eval_quadratic, bind, lift. rewrite H.
      fold u'. rewrite Hc, Hflag. reflexivity.
  - unfold __call__, call_eval, _eval_quadratic, bind, lift. rewrite H.
    fold u'. rewrite Hc. reflexivity.
Qed.

Lemma uniform_runs_only (m : Model) :
  _eval m = Bound_eval_uniform -> runs_only ma m K_eval_uniform.
Proof.
  intros H z k u c log. eexists. exists [Kernel (CallUniform z k c)].
  split; [now apply call_uniform |]. right. now eexists.
Qed.

Lemma chromosphere_runs_only (m : Model) :
  _eval m = Bound_eval_chromosphere -> runs_only ma m K_eval_chromosphere.
Proof.
  intros H z k u c log. eexists. exists [Kernel (CallChromosphere z k c)].
  split; [now apply call_chromosphere |]. right. now eexists.
Qed.

Lemma quadratic_runs_only (m : Model) :
  _eval m = Bound_eval_quadratic ->
  runs_only ma m (if truthy (interpolate m) then K_eval_quad_ip else K_eval_quad).
Proof.
  intros H z k u c log.
  pose proof (call_quadratic m z k u c log H) as Hq. cbv zeta in Hq.
  destruct (per_passband c _) as [c' | e].
  - destruct (truthy (interpolate m)).
    + destruct (interp m) as [t |].
      * eexists. eexists. split; [exact Hq |]. right. now eexists.
      * exists (Raise (AttributeError "ed")), []. rewrite app_nil_r.
        split; [exact Hq |]. left. split; [reflexivity | now eexists].
    + eexists. eexists. split; [exact Hq |]. right. now eexists.
  - exists (Raise e), []. rewrite app_nil_r.
    split; [exact Hq |]. left. split; [reflexivity | now eexists].
Qed.

(** C2. For every configuration the constructor accepts, an evaluation
    reaches the back end through one kernel only, fixed at construction:
    [eval_chromosphere] for model "chromosphere"; [eval_uniform] for model
    "uniform" and for any other non-chromosphere model constructed with
    [nldc = 0]; for model "quadratic" with [nldc = 2], the lookup kernel
    [eval_quad_ip] when the interpolation flag ([interpolate] or the [lerp]
    keyword) is set and the exact kernel [eval_quad] when it is not; for
    model "interpolated_quadratic" with [nldc = 2] and the flag set, the
    lookup kernel [eval_quad_ip]. *)
Theorem init_selects_kernel (a : Init.Args) (log0 log1 : list Event) (m : Model) :
  init a log0 = (Ok m, log1) ->
  (Init.model a = "chromosphere"%string -> runs_only ma m K_eval_chromosphere)
  /\ (Init.model a = "uniform"%string -> runs_only ma m K_eval_uniform)
  /\ (Init.model a <> "chromosphere"%string -> Init.nldc a = 0%Z ->
      runs_only ma m K_eval_uniform)
  /\ (Init.model a = "quadratic"%string -> Init.nldc a <> 0%Z ->
      runs_only ma m (if truthy (interpolate_flag a)
                      then K_eval_quad_ip else K_eval_quad))
  /\ (Init.model a = "interpolated_quadratic"%string -> Init.nldc a <> 0%Z ->
      truthy (interpolate_flag a) = true ->
      runs_only ma m K_eval_quad_ip).
Proof.
  intros Hinit. destruct (init_ok_inv a log0 Hinit) as [base [_ Hbranch]].
  repeat split.
  - intros Hm. rewrite Hm in Hbranch. simpl in Hbranch.
    destruct Hbranch as [-> _]. now apply chromosphere_runs_only.
  - intros Hm. rewrite Hm in Hbranch. simpl in Hbranch.
    destruct Hbranch as [-> _]. now apply uniform_runs_only.
  - intros Hm Hn. apply String.eqb_neq in Hm. rewrite Hm, Hn in Hbranch.
    rewrite orb_true_r in Hbranch.
    destruct Hbranch as [-> _]. now apply uniform_runs_only.
  - intros Hm Hn. apply Z.eqb_neq in Hn. rewrite Hm, Hn in Hbranch.
    simpl in Hbranch.
    destruct (truthy (interpolate_flag a)) eqn:Hflag.
    + destruct Hbranch as [t [_ [-> _]]].
      pose proof (@quadratic_runs_only
                    (mk_MandelAgol base (interpolate_flag a) Bound_eval_quadratic
                       (Some (mk_InterpAttrs (t_ed t) (t_le t) (t_ld t) (t_kt t)
                                (t_zt t) (Init.klims a) (Init.nk a) (Init.nz a))))
                    eq_refl) as Hq.
      simpl in Hq. now rewrite Hflag in Hq.
    + destruct Hbranch as [-> _].
      pose proof (@quadratic_runs_only
                    (mk_MandelAgol base (interpolate_flag a) Bound_eval_quadratic
                       None) eq_refl) as Hq.
      simpl in Hq. now rewrite Hflag in Hq.
  - intros Hm Hn Hflag. apply Z.eqb_neq in Hn. rewrite Hm, Hn in Hbranch.
    simpl in Hbranch. destruct Hbranch as [t [_ [-> _]]].
    pose proof (@quadratic_runs_only
                  (mk_MandelAgol base (interpolate_flag a) Bound_eval_quadratic
                     (Some (mk_InterpAttrs (t_ed t) (t_le t) (t_ld t) (t_kt t)
                              (t_zt t) (Init.klims a) (Init.nk a) (Init.nz a))))
                  eq_refl) as Hq.
    simpl in Hq. now rewrite Hflag in Hq.
Qed.

Lemma Tables_eta (t : Tables) :
  mk_Tables (t_ed t) (t_le t) (t_ld t) (t_kt t) (t_zt t) = t.
Proof. now destruct t. Qed.

(** An evaluation builds no table, and a lookup call it makes is handed the
    arrays stored on the model. *)
Lemma call_reads_stored_tables (m : Model) z k u c log :
  exists (r : Result ndarray) (evs : list Event),
    __call__ ma m z k u c log = (r, log ++ evs)
    /\ tables_built evs = 0%nat
    /\ forall call tabs,
        In (Kernel call) evs -> tables_passed call = Some tabs ->
        exists t, interp m = Some t
                  /\ tabs = mk_Tables (ed t) (le t) (ld t) (kt t) (zt t).
Proof.
  destruct (_eval m) eqn:Hev.
  - eexists. exists [Kernel (CallUniform z k c)].
    split; [now apply call_uniform |]. split; [reflexivity |].
    intros call tabs [Hin | []] Hp. injection Hin as <-. discriminate.
  - eexists. exists [Kernel (CallChromosphere z k c)].
    split; [now apply call_chromosphere |]. split; [reflexivity |].
    intros call tabs [Hin | []] Hp. injection Hin as <-. discriminate.
  - pose proof (call_quadratic m z k u c log Hev) as Hq. cbv zeta in Hq.
    destruct (per_passband c _) as [c' | e].
    + destruct (truthy (interpolate m)).
      * destruct (interp m) as [t |].
        -- eexists. eexists. split; [exact Hq |]. split; [reflexivity |].
           intros call tabs [Hin | []] Hp. injection Hin as <-.
           injection Hp as <-. now exists t.
        -- exists (Raise (AttributeError "ed")), []. rewrite app_nil_r.
           split; [exact Hq |]. split; [reflexivity |]. intros ? ? [].
      * eexists. eexists. split; [exact Hq |]. split; [reflexivity |].
        intros call tabs [Hin | []] Hp. injection Hin as <-. discriminate.
    + exists (Raise e), []. rewrite app_nil_r.
      split; [exact Hq |]. split; [reflexivity |]. intros ? ? [].
Qed.

(** C5. The table is built by the constructor, not by an evaluation.  A
    successful construction calls [calculate_interpolation_tables] exactly
    once, on [(klims[0], klims[1], nk, nz)], when the configuration reaches
    line 59 (model neither "chromosphere" nor "uniform", [nldc] not 0, and
    model "interpolated_quadratic" or the interpolation flag set) and stores
    what it returns; otherwise it builds nothing and stores no table.
    Afterwards no evaluation builds a table, and every call of the lookup
    kernel is handed the arrays the constructor stored. *)
Theorem tables_are_built_by_the_constructor
        (a : Init.Args) (log0 log1 : list Event) (m : Model) :
  init a log0 = (Ok m, log1) ->
  (exists evs,
      log1 = log0 ++ evs
      /\ tables_built evs = (if reaches_table_build a then 1 else 0)%nat
      /\ (reaches_table_build a = true ->
          In (BuildTables (fst (Init.klims a)) (snd (Init.klims a))
                          (Init.nk a) (Init.nz a)) evs))
  /\ (reaches_table_build a = false -> interp m = None)
  /\ (reaches_table_build a = true ->
      exists t,
        calculate_interpolation_tables ma (fst (Init.klims a))
            (snd (Init.klims a)) (Init.nk a) (Init.nz a) = Ok t
        /\ interp m = Some (mk_InterpAttrs (t_ed t) (t_le t) (t_ld t) (t_kt t)
                              (t_zt t) (Init.klims a) (Init.nk a) (Init.nz a)))
  /\ (forall z k u c log,
         exists (r : Result ndarray) (evs : list Event),
           __call__ ma m z k u c log = (r, log ++ evs)
           /\ tables_built evs = 0%nat
           /\ forall call tabs,
               In (Kernel call) evs -> tables_passed call = Some tabs ->
               calculate_interpolation_tables ma (fst (Init.klims a))
                   (snd (Init.klims a)) (Init.nk a) (Init.nz a) = Ok tabs).
Proof.
  intros Hinit. destruct (init_ok_inv a log0 Hinit) as [base [_ Hbranch]].
  unfold reaches_table_build.
  destruct (String.eqb (Init.model a) "chromosphere");
    [| destruct (String.eqb (Init.model a) "uniform" || Z.eqb (Init.nldc a) 0);
       [| destruct (String.eqb (Init.model a) "interpolated_quadratic"
                    || truthy (interpolate_flag a)) ] ];
    simpl.
  1, 2, 4:
    destruct Hbranch as [-> ->]; split;
    [ exists [SuperInit]; repeat split; discriminate
    | split; [reflexivity | split; [discriminate |] ] ];
    intros z k u c log;
    match goal with
    | |- context [__call__ ma ?obj _ _ _ _ _] =>
        destruct (call_reads_stored_tables obj z k u c log)
          as [r [evs [Hcall [Hbuilt Hpass]]]]
    end;
    exists r, evs; split; [exact Hcall | split; [exact Hbuilt |] ];
    intros call tabs Hin Hp;
    destruct (Hpass call tabs Hin Hp) as [t [Hnone _]]; discriminate.
  destruct Hbranch as [t [Hcalc [-> ->]]]. split.
  - eexists. split; [reflexivity |]. split; [reflexivity |].
    intros _. right. now left.
  - split; [discriminate |]. split; [intros _; now exists t |].
    intros z k u c log.
    match goal with
    | |- context [__call__ ma ?obj _ _ _ _ _] =>
        destruct (call_reads_stored_tables obj z k u c log)
          as [r [evs [Hcall [Hbuilt Hpass]]]]
    end.
    exists r, evs. split; [exact Hcall | split; [exact Hbuilt |] ].
    intros call tabs Hin Hp.
    destruct (Hpass call tabs Hin Hp) as [t' [Hsome ->]].
    simpl in Hsome. injection Hsome as <-. simpl.
    now rewrite Tables_eta.
Qed.
Lemma ravel_single_data (f flux : ndarray) :
  ravel_single f = Ok flux ->
  data flux = data f /\ (shape flux = shape f \/ shape flux = [size f]).
Proof.
  unfold ravel_single, shape0. destruct (shape f) as [| d0 rest] eqn:Hs;
    [discriminate |].
  destruct (Nat.eqb d0 1); intros H; injection H as <-.
  - split; [reflexivity | now right].
  - split; [reflexivity | left; now rewrite Hs].
Qed.

(** An evaluation that returns a flux made exactly one kernel call, and
    returns the values of that kernel's answer: line 135 changes the shape
    only. *)
Theorem call_returns_kernel_flux (m : Model) z k u c log flux log' :
  __call__ ma m z k u c log = (Ok flux, log') ->
  exists call f,
    log' = log ++ [Kernel call]
    /\ answer ma call = Ok f
    /\ data flux = data f
    /\ (shape flux = shape f \/ shape flux = [size f]).
Proof.
  assert (Hafter : forall call,
             (match answer ma call with
              | Ok f => ravel_single f
              | Raise e => Raise e
              end, log ++ [Kernel call]) = (Ok flux, log') ->
             exists call f,
               log' = log ++ [Kernel call]
               /\ answer ma call = Ok f
               /\ data flux = data f
               /\ (shape flux = shape f \/ shape flux = [size f])).
  { intros call H. injection H as Hr <-.
    destruct (answer ma call) as [f | e] eqn:Ha; [| discriminate].
    exists call, f. repeat split; try assumption; now apply ravel_single_data. }
  intros H. destruct (_eval m) eqn:Hev.
  - rewrite (call_uniform m z k u c log Hev) in H.
    now apply (Hafter (CallUniform z k c)).
  - rewrite (call_chromosphere m z k u c log Hev) in H.
    now apply (Hafter (CallChromosphere z k c)).
  - pose proof (call_quadratic m z k u c log Hev) as Hq. cbv zeta in Hq.
    destruct (per_passband c _) as [c' | e]; [| congruence].
    destruct (truthy (interpolate m)).
    + destruct (interp m) as [t |]; [| congruence].
      rewrite Hq in H. now apply (Hafter _ H).
    + rewrite Hq in H. now apply (Hafter _ H).
Qed.

(** A model bound to the uniform or the chromosphere kernel evaluates to the
    same result, with the same log, whatever limb-darkening coefficients it
    is given. *)
Theorem disc_models_ignore_limb_darkening (m : Model) z k u u' c log :
  _eval m = Bound_eval_uniform \/ _eval m = Bound_eval_chromosphere ->
  __call__ ma m z k u c log = __call__ ma m z k u' c log.
Proof.
  intros [H | H].
  - now rewrite !(call_uniform m z k _ c log H).
  - now rewrite !(call_chromosphere m z k _ c log H).
Qed.

(** A constructed model that evaluates by lookup has its tables: reading
    [self.ed] in [_eval_quadratic] cannot fail. *)
Theorem constructed_lookup_has_tables
        (a : Init.Args) (log0 log1 : list Event) (m : Model) :
  init a log0 = (Ok m, log1) ->
  _eval m = Bound_eval_quadratic ->
  truthy (interpolate m) = true ->
  exists t, interp m = Some t.
Proof.
  intros Hinit Hev Hflag.
  destruct (init_ok_inv a log0 Hinit) as [base [_ Hbranch]].
  destruct (String.eqb (Init.model a) "chromosphere").
  { destruct Hbranch as [-> _]. discriminate Hev. }
  destruct (String.eqb (Init.model a) "uniform" || Z.eqb (Init.nldc a) 0).
  { destruct Hbranch as [-> _]. discriminate Hev. }
  destruct (String.eqb (Init.model a) "interpolated_quadratic") eqn:Hname;
    simpl in Hbranch.
  - destruct Hbranch as [t [_ [-> _]]]. now eexists.
  - destruct (truthy (interpolate_flag a)) eqn:Hf.
    + destruct Hbranch as [t [_ [-> _]]]. now eexists.
    + destruct Hbranch as [-> _]. simpl in Hflag. congruence.
Qed.
(** Line 111 on a scalar contamination: every passband gets that value. *)
Lemma scalar_contamination_is_broadcast (c : Qc) (npb : nat) :
  per_passband (AScalar c) npb = Ok {| shape := [npb]; data := repeat c npb |}.
Proof.
  unfold per_passband, mul_ones. simpl. rewrite Qcmult_1_r.
  now rewrite app_nil_r.
Qed.

(** The presets: [MAUniform] binds the uniform kernel, [MAChromosphere] the
    chromosphere kernel, and neither builds a table. *)
Lemma MAUniform_binds_uniform nthr supersampling exptime eclipse log0 log1 (m : Model) :
  MAUniform__init__ TransitModel_init ma nthr supersampling exptime eclipse log0
  = (Ok m, log1) ->
  _eval m = Bound_eval_uniform /\ interp m = None /\ log1 = log0 ++ [SuperInit].
Proof.
  intros H. destruct (init_ok_inv _ log0 H) as [base [_ Hbranch]].
  simpl in Hbranch. now destruct Hbranch as [-> ->].
Qed.

Lemma MAChromosphere_binds_chromosphere nthr supersampling exptime log0 log1 (m : Model) :
  MAChromosphere__init__ TransitModel_init ma nthr supersampling exptime log0
  = (Ok m, log1) ->
  _eval m = Bound_eval_chromosphere /\ interp m = None /\ log1 = log0 ++ [SuperInit].
Proof.
  intros H. destruct (init_ok_inv _ log0 H) as [base [_ Hbranch]].
  simpl in Hbranch. now destruct Hbranch as [-> ->].
Qed.

(** [MAChromosphere.__call__] hands [z, k, c] to the chromosphere kernel and
    returns its answer as it comes. *)
Lemma MAChromosphere_call (m : Model) z k c log :
  _eval m = Bound_eval_chromosphere ->
  MAChromosphere__call__ ma m z k c log
  = (eval_chromosphere ma z k c, log ++ [Kernel (CallChromosphere z k c)]).
Proof.
  intros H. unfold MAChromosphere__call__, call_eval. now rewrite H.
Qed.
End Dispatch.

(** Naming the quadratic model does not keep the uniform kernel out:
    constructed with [nldc = 0], the model named "quadratic" is evaluated by
    [eval_uniform]. *)
Lemma quadratic_name_can_run_uniform_kernel :
  ~ (forall (a : mandelagol.Init.Args) (m : mandelagol.MandelAgol unit)
            (log : list mandelagol.Event) (z : arraylike) (k : Qc)
            (u c : arraylike),
        mandelagol.__init__ standin.TransitModel_init standin.ma a [] = (Ok m, log) ->
        (mandelagol.Init.model a = "quadratic"%string
         \/ mandelagol.Init.model a = "interpolated_quadratic"%string ->
         ~ In mandelagol.K_eval_uniform
              (mandelagol.kernels_run
                 (snd (mandelagol.__call__ standin.ma m z k u c log))))
        /\ (mandelagol.Init.model a = "interpolated_quadratic"%string ->
            ~ In mandelagol.K_eval_quad
                 (mandelagol.kernels_run
                    (snd (mandelagol.__call__ standin.ma m z k u c log))))).
Proof.
  intros H.
  destruct (H (mandelagol.Init.set_nldc 0 mandelagol.Init.defaults)
              (mandelagol.mk_MandelAgol tt (VBool false)
                 mandelagol.Bound_eval_uniform None)
              [mandelagol.SuperInit]
              (AList [0; 1]) standin.third (AList []) (AScalar 0) eq_refl)
    as [Huniform _].
  apply Huniform; [now left |].
  vm_compute. now left.
Qed.

Lemma init_selects_kernel_witness :
  mandelagol.runs_only standin.ma
    (mandelagol.mk_MandelAgol tt (VBool false) mandelagol.Bound_eval_quadratic None)
    mandelagol.K_eval_quad
  /\ mandelagol.runs_only standin.ma
       (mandelagol.mk_MandelAgol tt (VBool false) mandelagol.Bound_eval_uniform None)
       mandelagol.K_eval_uniform.
Proof.
  split.
  - destruct (init_selects_kernel standin.TransitModel_init standin.ma
                mandelagol.Init.defaults []
                (m := mandelagol.mk_MandelAgol tt (VBool false)
                        mandelagol.Bound_eval_quadratic None)
                (log1 := [mandelagol.SuperInit]) eq_refl)
      as [_ [_ [_ [Hquad _]]]].
    apply Hquad; [reflexivity | discriminate].
  - destruct (init_selects_kernel standin.TransitModel_init standin.ma
                (mandelagol.Init.set_nldc 0 mandelagol.Init.defaults) []
                (m := mandelagol.mk_MandelAgol tt (VBool false)
                        mandelagol.Bound_eval_uniform None)
                (log1 := [mandelagol.SuperInit]) eq_refl)
      as [_ [_ [Hzero _]]].
    apply Hzero; [discriminate | reflexivity].
Defined.

(** The table is not built lazily: with [interpolate=True] it is built by
    the constructor, before any evaluation has been requested. *)
Lemma tables_exist_before_first_evaluation :
  ~ (forall (a : mandelagol.Init.Args) (m : mandelagol.MandelAgol unit)
            (log : list mandelagol.Event),
        mandelagol.__init__ standin.TransitModel_init standin.ma a [] = (Ok m, log) ->
        mandelagol.tables_built log = 0%nat).
Proof.
  intros H.
  pose (a := mandelagol.Init.set_interpolate (VBool true) mandelagol.Init.defaults).
  destruct (mandelagol.__init__ standin.TransitModel_init standin.ma a [])
    as [[m | e] log] eqn:E.
  - specialize (H a m log E).
    vm_compute in E. injection E as _ <-. discriminate H.
  - vm_compute in E. discriminate E.
Qed.

Lemma tables_are_built_by_the_constructor_witness :
  exists m,
    mandelagol.__init__ standin.TransitModel_init standin.ma
      (mandelagol.Init.set_interpolate (VBool true) mandelagol.Init.defaults) []
    = (Ok m,
       [mandelagol.SuperInit;
        mandelagol.BuildTables (Q2Qc (7 # 100)) (Q2Qc (13 # 100)) 128 256])
    /\ mandelagol.interp m
       = Some (mandelagol.mk_InterpAttrs standin.no_table standin.no_table
                 standin.no_table standin.no_table standin.no_table
                 (Q2Qc (7 # 100), Q2Qc (13 # 100)) 128 256).
Proof.
  exists (mandelagol.mk_MandelAgol tt (VBool true) mandelagol.Bound_eval_quadratic
            (Some (mandelagol.mk_InterpAttrs standin.no_table standin.no_table
                     standin.no_table standin.no_table standin.no_table
                     (Q2Qc (7 # 100), Q2Qc (13 # 100)) 128 256))).
  split; [reflexivity |].
  destruct (tables_are_built_by_the_constructor standin.TransitModel_init
              standin.ma
              (mandelagol.Init.set_interpolate (VBool true) mandelagol.Init.defaults)
              [] eq_refl)
    as [_ [_ [Hstored _]]].
  destruct (Hstored eq_refl) as [t [Hcalc Hinterp]].
  injection Hcalc as <-. exact Hinterp.
Defined.

(** ** The engine as specified: kernels and exposure integration *)

Section EngineFacts.
Import engine.
Variable overlap_loss : Qc -> Qc -> Qc.
Variable closed_form : Variant -> Qc -> Qc -> list Qc -> Qc.

Local Abbreviation flux_model := (engine.flux_model overlap_loss closed_form).
Local Abbreviation flux := (engine.flux overlap_loss closed_form).

Lemma Qcleb_le (x y : Qc) : Qcleb x y = true <-> x <= y.
Proof. unfold Qcleb, Qcle. apply Qle_bool_iff. Qed.


Lemma dilute_full (c : Qc) : dilute 1 c = 1.
Proof. unfold dilute. ring. Qed.






(** C1. For each of the five variants, every contamination [c] and every
    coefficient list [u], the flux at a separation [z >= 1 + k] is exactly 1. *)
Theorem no_overlap_gives_full_flux (v : Variant) (z k : Qc) (u : list Qc) (c : Qc) :
  1 + k <= z -> flux v z k u c = 1.
Proof.
  intros H. apply Qcleb_le in H.
  unfold engine.flux, engine.flux_model. rewrite H. apply dilute_full.
Qed.

(** Above full flux the affine step works the other way: the reported flux
    falls as the contamination grows. *)
Lemma dilute_falls_above_one (f c1 c2 : Qc) :
  1 < f -> c1 < c2 -> dilute f c2 < dilute f c1.
Proof.
  intros Hf Hc. apply Qclt_minus_iff.
  replace (dilute f c1 + - dilute f c2) with ((c2 + - c1) * (f - 1))
    by (unfold dilute; ring).
  apply Qclt_minus_iff in Hf, Hc.
  rewrite <- (Qcmult_0_l (f - 1)). now apply Qcmult_lt_compat_r.
Qed.


(** The condition cannot be dropped: where the undiluted flux of a variant
    is above 1, its reported flux falls strictly as the contamination
    grows. *)
Lemma contamination_lowers_a_brightening
      (v : Variant) (z k : Qc) (u : list Qc) (c1 c2 : Qc) :
  1 < flux_model v z k u -> c1 < c2 ->
  flux v z k u c2 < flux v z k u c1.
Proof. intros Hf Hc. unfold engine.flux. now apply dilute_falls_above_one. Qed.

Lemma Qc_of_nat_0 : Qc_of_nat 0 = 0.
Proof. apply Qc_is_canon. reflexivity. Qed.

Lemma Qc_of_nat_1 : Qc_of_nat 1 = 1.
Proof. apply Qc_is_canon. reflexivity. Qed.

Lemma two_nonzero : Q2Qc 2 <> 0.
Proof. intros H. apply Q2Qc_eq_iff in H. discriminate H. Qed.

(** With one sub-sample the only sub-time is the midpoint. *)
Lemma subtimes_single (t d : Qc) : subtimes t d 1 = [t].
Proof.
  unfold subtimes. simpl. rewrite Qc_of_nat_0, Qc_of_nat_1.
  f_equal. field. split; [apply Q_apart_0_1 | apply two_nonzero].
Qed.

Lemma supersample_single (lc : Qc -> Qc) (t d : Qc) :
  supersample lc t d 1 = lc t.
Proof.
  unfold supersample. rewrite subtimes_single. unfold mean. simpl.
  rewrite Qc_of_nat_1. field. apply Q_apart_0_1.
Qed.

(** C8. For each variant, the light curve averaged over an exposure of any
    duration [d] with one sub-sample is the light curve at the midpoint. *)
Theorem one_subsample_is_instantaneous
        (sep : Qc -> Qc) (v : Variant) (k : Qc) (u : list Qc) (c t d : Qc) :
  supersample (light_curve overlap_loss closed_form sep v k u c) t d 1
  = light_curve overlap_loss closed_form sep v k u c t.
Proof. apply supersample_single. Qed.
End EngineFacts.

(** With two sub-samples the sub-times sit a quarter of the exposure on
    either side of the midpoint. *)
Lemma subtimes_pair (t d : Qc) :
  engine.subtimes t d 2 = [t - d / Q2Qc 4; t + d / Q2Qc 4].
Proof.
  unfold engine.subtimes. simpl.
  assert (H2 : Q2Qc 2 = 1 + 1) by (apply Qc_is_canon; reflexivity).
  assert (Hn : engine.Qc_of_nat 2 = 1 + 1) by (apply Qc_is_canon; reflexivity).
  assert (H4 : Q2Qc 4 = (1 + 1) * (1 + 1)) by (apply Qc_is_canon; reflexivity).
  rewrite Qc_of_nat_0, Qc_of_nat_1, Hn, H2, H4.
  assert (E0 : t - d / (1 + 1) + (0 + 1 / (1 + 1)) * (d / (1 + 1))
               = t - d / ((1 + 1) * (1 + 1))) by (field; split; qc_nonzero).
  assert (E1 : t - d / (1 + 1) + (1 + 1 / (1 + 1)) * (d / (1 + 1))
               = t + d / ((1 + 1) * (1 + 1))) by (field; split; qc_nonzero).
  now rewrite E0, E1.
Qed.

Lemma no_overlap_gives_full_flux_witness :
  engine.flux standin.overlap_loss standin.closed_form engine.Chromosphere
              standin.two standin.tenth [standin.third; standin.tenth]
              standin.half = 1
  /\ engine.flux standin.overlap_loss standin.closed_form engine.Quadratic
                 (1 + standin.tenth) standin.tenth [standin.third; standin.tenth]
                 0 = 1.
Proof.
  split.
  - apply no_overlap_gives_full_flux. unfold Qcle. vm_compute. discriminate.
  - apply no_overlap_gives_full_flux. apply Qcle_refl.
Defined.



Example diluted_brightening :
  engine.flux standin.overlap_loss standin.brightening_form engine.Quadratic
              0 standin.tenth [1; 1] 0 = Q2Qc (101 # 100)
  /\ engine.flux standin.overlap_loss standin.brightening_form engine.Quadratic
                 0 standin.tenth [1; 1] standin.half = Q2Qc (201 # 200).
Proof. split; apply Qc_is_canon; reflexivity. Qed.

(** [MAChromosphere.evaluate] does not hand its contamination on: for any
    base-class [evaluate], its result and its log are the same for every
    [c]. *)
Lemma MAChromosphere_evaluate_drops_contamination
      (TransitModel : Type)
      (TransitModel_evaluate :
         mandelagol.MandelAgol TransitModel -> arraylike -> Qc -> arraylike ->
         Qc -> Qc -> Qc -> Qc -> Qc -> Qc -> M mandelagol.Event ndarray)
      (self : mandelagol.MandelAgol TransitModel)
      (t : arraylike) (k t0 p a i e w : Qc) (c c' : arraylike) :
  mandelagol.MAChromosphere_evaluate TransitModel_evaluate self t k t0 p a i e w c
  = mandelagol.MAChromosphere_evaluate TransitModel_evaluate self t k t0 p a i e w c'.
Proof. reflexivity. Qed.

Example diluted_uniform_dip :
  engine.flux standin.overlap_loss standin.closed_form engine.Uniform
              0 standin.tenth [] 0 = Q2Qc (99 # 100)
  /\ engine.flux standin.overlap_loss standin.closed_form engine.Uniform
                 0 standin.tenth [] standin.half = Q2Qc (199 # 200).
Proof. split; apply Qc_is_canon; reflexivity. Qed.

(** ** Runs of the facade on the stand-ins *)

(** The default model, evaluated out of transit: the exact quadratic kernel
    is called once with one passband, and the single row is flattened. *)
Example default_model_run :
  exists m,
    mandelagol.__init__ standin.TransitModel_init standin.ma
      mandelagol.Init.defaults [] = (Ok m, [mandelagol.SuperInit])
    /\ mandelagol.__call__ standin.ma m (AList [standin.two; standin.two])
         standin.tenth (AList [standin.third; standin.tenth]) (AScalar 0)
         [mandelagol.SuperInit]
       = (Ok {| shape := [2%nat]; data := [1; 1] |},
          [mandelagol.SuperInit;
           mandelagol.Kernel
             (mandelagol.CallQuad (AList [standin.two; standin.two]) standin.tenth
                {| shape := [2%nat]; data := [standin.third; standin.tenth] |}
                {| shape := [1%nat]; data := [0 * 1] |})]).
Proof.
  exists (mandelagol.mk_MandelAgol tt (VBool false)
            mandelagol.Bound_eval_quadratic None).
  split; reflexivity.
Qed.

(** The [lerp] keyword sets the interpolation flag like [interpolate] does:
    the constructor builds the tables and evaluations use the lookup. *)
Example lerp_keyword_run :
  let a := mandelagol.Init.set_kwargs [("lerp"%string, VBool true)]
             mandelagol.Init.defaults in
  exists m log,
    mandelagol.__init__ standin.TransitModel_init standin.ma a [] = (Ok m, log)
    /\ mandelagol.tables_built log = 1%nat
    /\ mandelagol.kernels_run
         (snd (mandelagol.__call__ standin.ma m (AList [0; 1]) standin.tenth
                 (AList [standin.third; standin.tenth]) (AScalar 0) log))
       = [mandelagol.K_eval_quad_ip].
Proof.
  cbv zeta.
  exists (mandelagol.mk_MandelAgol tt (VBool true)
            mandelagol.Bound_eval_quadratic (Some standin.stored_tables)).
  exists standin.table_log.
  split; [reflexivity |]. split; reflexivity.
Qed.

(** Model "interpolated_quadratic" with the flag left unset: line 58 builds
    the tables, yet line 113 tests the flag only, so evaluations call the
    exact kernel and the tables stay unused. *)
Example interpolated_quadratic_without_flag_run :
  let a := mandelagol.Init.set_model "interpolated_quadratic"
             mandelagol.Init.defaults in
  exists m log,
    mandelagol.__init__ standin.TransitModel_init standin.ma a [] = (Ok m, log)
    /\ mandelagol.tables_built log = 1%nat
    /\ mandelagol.kernels_run
         (snd (mandelagol.__call__ standin.ma m (AList [0; 1]) standin.tenth
                 (AList [standin.third; standin.tenth]) (AScalar 0) log))
       = [mandelagol.K_eval_quad].
Proof.
  cbv zeta.
  exists (mandelagol.mk_MandelAgol tt (VBool false)
            mandelagol.Bound_eval_quadratic (Some standin.stored_tables)).
  exists standin.table_log.
  split; [reflexivity |]. split; reflexivity.
Qed.

(** [evaluate_ps] once the data is set: one kernel call on a (1, 7) batch,
    and the (1, 3) flux squeezed to three values. *)
Example evaluate_ps_run :
  fst (qpower2.evaluate_ps standin.qpower2_model standin.with_data
         standin.tenth (ones 2) 0 1 1 1 0 0 [])
  = Ok {| shape := [3%nat]; data := [1; 1; 1] |}.
Proof. reflexivity. Qed.

(* ------------------------------------------------------------------ *)
(** * Further properties of the facades *)

(** ** [MandelAgol.__init__]: when it succeeds and how it fails *)

Section ConstructorOutcomes.
Import mandelagol.
Variable TransitModel : Type.
Variable TransitModel_init :
  Z -> Z -> value -> Z -> Qc -> bool -> list (string * value) ->
  Result TransitModel.
Variable ma : Backend.

Local Abbreviation init := (__init__ TransitModel_init ma).
Local Abbreviation Model := (MandelAgol TransitModel).
Local Abbreviation base_init a :=
  (TransitModel_init (Init.nldc a) (Init.nthr a) (Init.interpolate a)
                     (Init.supersampling a) (Init.exptime a)
                     (Init.eclipse a) (Init.kwargs a)).
Local Abbreviation build_tables a :=
  (calculate_interpolation_tables ma (fst (Init.klims a)) (snd (Init.klims a))
                                  (Init.nk a) (Init.nz a)).

(** The constructor once both asserts have passed. *)
Lemma init_after_asserts (a : Init.Args) (log : list Event) :
  In (Init.model a) models ->
  (Init.nldc a = 0 \/ Init.nldc a = 2)%Z ->
  init a log
  = match base_init a with
    | Raise e => (Raise e, log ++ [SuperInit])
    | Ok base =>
        if String.eqb (Init.model a) "chromosphere" then
          (Ok (mk_MandelAgol base (interpolate_flag a) Bound_eval_chromosphere None),
           log ++ [SuperInit])
        else if String.eqb (Init.model a) "uniform" || Z.eqb (Init.nldc a) 0 then
          (Ok (mk_MandelAgol base (interpolate_flag a) Bound_eval_uniform None),
           log ++ [SuperInit])
        else if String.eqb (Init.model a) "interpolated_quadratic"
                || truthy (interpolate_flag a) then
          match build_tables a with
          | Raise e =>
              (Raise e,
               log ++ [SuperInit;
                       BuildTables (fst (Init.klims a)) (snd (Init.klims a))
                                   (Init.nk a) (Init.nz a)])
          | Ok t =>
              (Ok (mk_MandelAgol base (interpolate_flag a) Bound_eval_quadratic
                     (Some (mk_InterpAttrs (t_ed t) (t_le t) (t_ld t) (t_kt t)
                              (t_zt t) (Init.klims a) (Init.nk a) (Init.nz a)))),
               log ++ [SuperInit;
                       BuildTables (fst (Init.klims a)) (snd (Init.klims a))
                                   (Init.nk a) (Init.nz a)])
          end
        else
          (Ok (mk_MandelAgol base (interpolate_flag a) Bound_eval_quadratic None),
           log ++ [SuperInit])
    end.
Proof.
  intros Hname Hcount.
  apply (model_known_iff (Init.model a)) in Hname.
  apply (nldc_allowed_iff TransitModel_init (Init.nldc a)) in Hcount.
  unfold __init__, bind, assert_, emit, lift, ret, raise.
  rewrite Hname, Hcount.
  destruct (base_init a) as [base | e]; [| reflexivity].
  destruct (String.eqb (Init.model a) "chromosphere"); [reflexivity |].
  destruct (String.eqb (Init.model a) "uniform" || Z.eqb (Init.nldc a) 0);
    [reflexivity |].
  destruct (String.eqb (Init.model a) "interpolated_quadratic"
            || truthy (interpolate_flag a)); [| reflexivity].
  rewrite <- app_assoc. simpl.
  now destruct (build_tables a).
Qed.

(** A constructor that did not raise an assertion error passed both asserts. *)
Lemma init_ok_passed_asserts (a : Init.Args) (log0 log1 : list Event) (m : Model) :
  init a log0 = (Ok m, log1) ->
  In (Init.model a) models /\ (Init.nldc a = 0 \/ Init.nldc a = 2)%Z.
Proof.
  unfold __init__, bind, assert_, raise.
  destruct (existsb (String.eqb (Init.model a)) models) eqn:Hname; [| discriminate].
  destruct (existsb (Z.eqb (Init.nldc a)) [0; 2]%Z) eqn:Hcount; [| discriminate].
  intros _. split.
  - now apply model_known_iff.
  - now apply (nldc_allowed_iff TransitModel_init).
Qed.

(** X1. The constructor returns a model exactly when the model name is one
    of [MandelAgol.models], [nldc] is 0 or 2, the base-class constructor
    returns, and, if the configuration reaches line 59, the table builder
    returns. *)
Theorem init_succeeds_iff (a : Init.Args) (log0 : list Event) :
  (exists m log1, init a log0 = (Ok m, log1))
  <-> (In (Init.model a) models
       /\ (Init.nldc a = 0 \/ Init.nldc a = 2)%Z
       /\ (exists base, base_init a = Ok base)
       /\ (reaches_table_build a = true -> exists t, build_tables a = Ok t)).
Proof.
  split.
  - intros [m [log1 H]].
    destruct (init_ok_passed_asserts a log0 H) as [Hname Hcount].
    rewrite (init_after_asserts a log0 Hname Hcount) in H.
    split; [exact Hname |]. split; [exact Hcount |].
    unfold reaches_table_build.
    destruct (base_init a) as [base | e]; [| discriminate].
    split; [now exists base |].
    destruct (String.eqb (Init.model a) "chromosphere"); [discriminate |].
    destruct (String.eqb (Init.model a) "uniform" || Z.eqb (Init.nldc a) 0);
      [discriminate |].
    destruct (String.eqb (Init.model a) "interpolated_quadratic"
              || truthy (interpolate_flag a)); [| discriminate].
    intros _. destruct (build_tables a) as [t | e]; [now exists t | discriminate].
  - intros [Hname [Hcount [[base Hbase] Htab]]].
    rewrite (init_after_asserts a log0 Hname Hcount), Hbase.
    unfold reaches_table_build in Htab.
    destruct (String.eqb (Init.model a) "chromosphere"); [now eexists; eexists |].
    destruct (String.eqb (Init.model a) "uniform" || Z.eqb (Init.nldc a) 0);
      [now eexists; eexists |].
    destruct (String.eqb (Init.model a) "interpolated_quadratic"
              || truthy (interpolate_flag a)); [| now eexists; eexists].
    destruct (Htab eq_refl) as [t Ht]. rewrite Ht. now eexists; eexists.
Qed.

(** X2. With a supported name and [nldc] 0 or 2, an exception of the
    base-class constructor leaves the constructor as it is, before any table
    is built; and when the base class returns and the configuration reaches
    line 59, an exception of the table builder leaves it as it is.  No model
    is returned in either case. *)
Theorem init_passes_on_collaborator_errors (a : Init.Args) (log : list Event) (e : Exn) :
  In (Init.model a) models ->
  (Init.nldc a = 0 \/ Init.nldc a = 2)%Z ->
  (base_init a = Raise e -> init a log = (Raise e, log ++ [SuperInit]))
  /\ (forall base,
         base_init a = Ok base ->
         reaches_table_build a = true ->
         build_tables a = Raise e ->
         init a log
         = (Raise e,
            log ++ [SuperInit;
                    BuildTables (fst (Init.klims a)) (snd (Init.klims a))
                                (Init.nk a) (Init.nz a)])).
Proof.
  intros Hname Hcount.
  rewrite (init_after_asserts a log Hname Hcount). split.
  - now intros ->.
  - intros base -> Hreach Hfail. unfold reaches_table_build in Hreach.
    destruct (String.eqb (Init.model a) "chromosphere"); [discriminate |].
    destruct (String.eqb (Init.model a) "uniform" || Z.eqb (Init.nldc a) 0);
      [discriminate |].
    simpl in Hreach. rewrite Hreach. now rewrite Hfail.
Qed.

Lemma truthy_py_or (v w : value) : truthy (py_or v w) = truthy v || truthy w.
Proof. unfold py_or. now destruct (truthy v) eqn:E; [rewrite E |]. Qed.

Lemma init_ok_flag (a : Init.Args) (log0 log1 : list Event) (m : Model) :
  init a log0 = (Ok m, log1) -> interpolate m = interpolate_flag a.
Proof.
  intros H. destruct (init_ok_inv TransitModel_init ma a log0 H) as [base [_ Hbranch]].
  destruct (String.eqb (Init.model a) "chromosphere").
  { now destruct Hbranch as [-> _]. }
  destruct (String.eqb (Init.model a) "uniform" || Z.eqb (Init.nldc a) 0).
  { now destruct Hbranch as [-> _]. }
  destruct (String.eqb (Init.model a) "interpolated_quadratic"
            || truthy (interpolate_flag a)).
  - now destruct Hbranch as [t [_ [-> _]]].
  - now destruct Hbranch as [-> _].
Qed.

(** X3. The flag a constructed model keeps in [self.interpolate] is set
    exactly when the [interpolate] argument or the [lerp] keyword is truthy;
    a missing [lerp] keyword counts as [False]. *)
Theorem lerp_keyword_sets_the_flag (a : Init.Args) (log0 log1 : list Event) (m : Model) :
  init a log0 = (Ok m, log1) ->
  truthy (interpolate m)
  = truthy (Init.interpolate a)
    || truthy (dict_get (Init.kwargs a) "lerp" (VBool false)).
Proof.
  intros H. rewrite (init_ok_flag a log0 H). apply truthy_py_or.
Qed.

(** X4. [MAUniform] cannot fail the constructor's asserts: it logs the
    base-class call and returns a model bound to the uniform kernel, without
    tables and with the flag unset, or it passes on the exception of the
    base-class constructor, which it calls with [nldc = 0]. *)
Theorem MAUniform_init_outcome (nthr supersampling : Z) (exptime : Qc)
        (eclipse : bool) (log : list Event) :
  MAUniform__init__ TransitModel_init ma nthr supersampling exptime eclipse log
  = (match TransitModel_init 0%Z nthr (VBool false) supersampling exptime
                             eclipse [] with
     | Ok base => Ok (mk_MandelAgol base (VBool false) Bound_eval_uniform None)
     | Raise e => Raise e
     end, log ++ [SuperInit]).
Proof.
  unfold MAUniform__init__.
  rewrite init_after_asserts; simpl; [| tauto | tauto].
  now destruct (TransitModel_init _ _ _ _ _ _ _).
Qed.

(** X5. [MAChromosphere] cannot fail the constructor's asserts either: it
    calls the base-class constructor with the default [nldc = 2] and without
    eclipses, and returns a model bound to the chromosphere kernel, without
    tables, or passes on the base-class exception. *)
Theorem MAChromosphere_init_outcome (nthr supersampling : Z) (exptime : Qc)
        (log : list Event) :
  MAChromosphere__init__ TransitModel_init ma nthr supersampling exptime log
  = (match TransitModel_init 2%Z nthr (VBool false) supersampling exptime
                             false [] with
     | Ok base => Ok (mk_MandelAgol base (VBool false) Bound_eval_chromosphere None)
     | Raise e => Raise e
     end, log ++ [SuperInit]).
Proof.
  unfold MAChromosphere__init__.
  rewrite init_after_asserts; simpl; [| tauto | tauto].
  now destruct (TransitModel_init _ _ _ _ _ _ _).
Qed.
End ConstructorOutcomes.

(** ** [MandelAgol.__call__]: every way an evaluation ends *)

Section EvaluationOutcomes.
Import mandelagol.
Variable TransitModel : Type.
Variable TransitModel_init :
  Z -> Z -> value -> Z -> Qc -> bool -> list (string * value) ->
  Result TransitModel.
Variable ma : Backend.

Local Abbreviation init := (__init__ TransitModel_init ma).
Local Abbreviation Model := (MandelAgol TransitModel).
Local Abbreviation finish call :=
  (match answer ma call with
   | Ok flux => ravel_single flux
   | Raise e => Raise e
   end).

Lemma log_grows (log : list Event) (ev : Event) : log ++ [ev] <> log.
Proof.
  intros H. apply (f_equal (@List.length Event)) in H.
  rewrite length_app in H. simpl in H. lia.
Qed.

Lemma mul_ones_error (a : ndarray) (n : nat) (e : Exn) :
  mul_ones a n = Raise e -> e = broadcast_error.
Proof.
  unfold mul_ones. destruct (rev (shape a)) as [| d front]; [discriminate |].
  destruct (Nat.eqb d n); [discriminate |].
  destruct (Nat.eqb d 1); [discriminate |].
  destruct (Nat.eqb n 1); [discriminate |].
  now intros [= <-].
Qed.

Lemma per_passband_error (c : arraylike) (npb : nat) (e : Exn) :
  per_passband c npb = Raise e -> e = broadcast_error.
Proof.
  unfold per_passband. destruct c as [x | xs | a].
  - apply mul_ones_error.
  - apply mul_ones_error.
  - destruct (Nat.eqb (size a) npb); [discriminate | apply mul_ones_error].
Qed.

(** An evaluation either makes one kernel call and finishes with its answer,
    or stops in [_eval_quadratic] before calling: on the broadcast of [c], or
    on the missing tables. *)
Lemma call_cases (m : Model) z k u c log :
  (exists call, __call__ ma m z k u c log = (finish call, log ++ [Kernel call]))
  \/ (_eval m = Bound_eval_quadratic
      /\ (__call__ ma m z k u c log = (Raise broadcast_error, log)
          \/ (truthy (interpolate m) = true /\ interp m = None
              /\ __call__ ma m z k u c log = (Raise (AttributeError "ed"), log)))).
Proof.
  destruct (_eval m) eqn:Hev.
  - left. exists (CallUniform z k c). now apply call_uniform.
  - left. exists (CallChromosphere z k c). now apply call_chromosphere.
  - pose proof (call_quadratic ma m z k u c log Hev) as Hq. cbv zeta in Hq.
    destruct (per_passband c _) as [c' | e] eqn:Hc.
    + destruct (truthy (interpolate m)) eqn:Hflag.
      * destruct (interp m) as [t |] eqn:Ht.
        -- left. eexists. exact Hq.
        -- right. split; [reflexivity |]. right. now repeat split.
      * left. eexists. exact Hq.
    + right. split; [reflexivity |]. left.
      now rewrite <- (per_passband_error _ _ Hc).
Qed.

(** X6. An evaluation that returns a flux made exactly one kernel call and
    returns that kernel's answer with the same elements in the same order:
    flattened to one dimension when the answer's first axis has length 1,
    untouched otherwise. *)
Theorem call_returns_the_kernel_answer (m : Model) z k u c log flux log' :
  __call__ ma m z k u c log = (Ok flux, log') ->
  exists call f d0 rest,
    log' = log ++ [Kernel call]
    /\ answer ma call = Ok f
    /\ shape f = d0 :: rest
    /\ flux = (if Nat.eqb d0 1 then ravel f else f)
    /\ data flux = data f.
Proof.
  intros H.
  destruct (call_cases m z k u c log) as [[call Hc] | [_ [Hc | [_ [_ Hc]]]]];
    rewrite Hc in H; try discriminate.
  injection H as Hr <-.
  destruct (answer ma call) as [f | e] eqn:Ha; [| discriminate].
  unfold ravel_single, shape0 in Hr.
  destruct (shape f) as [| d0 rest] eqn:Hs; [discriminate |].
  injection Hr as <-.
  exists call, f, d0, rest.
  repeat split; try reflexivity; try assumption.
  now destruct (Nat.eqb d0 1).
Qed.

(** X7. An evaluation that fails after its kernel call fails with the
    kernel's own exception, or, when the kernel answered with a 0-d array,
    with the index error of [flux.shape[0]]; no second kernel is tried. *)
Theorem call_failure_after_the_kernel (m : Model) z k u c log e call :
  __call__ ma m z k u c log = (Raise e, log ++ [Kernel call]) ->
  answer ma call = Raise e
  \/ (exists f, answer ma call = Ok f /\ shape f = []
                /\ e = IndexError "tuple index out of range").
Proof.
  intros H.
  destruct (call_cases m z k u c log) as [[call' Hc] | [_ [Hc | [_ [_ Hc]]]]];
    rewrite Hc in H.
  - injection H as Hr Hlog. apply app_inj_tail in Hlog.
    destruct Hlog as [_ Hcall]. injection Hcall as ->.
    destruct (answer ma call) as [f | e'] eqn:Ha; [| left; congruence].
    right. exists f. unfold ravel_single, shape0 in Hr.
    destruct (shape f); [| discriminate].
    injection Hr as <-. now repeat split.
  - injection H as _ Hlog. symmetry in Hlog. now apply log_grows in Hlog.
  - injection H as _ Hlog. symmetry in Hlog. now apply log_grows in Hlog.
Qed.

(** X8. A constructed model always reaches the back end unless the
    contamination cannot be broadcast: an evaluation that ends without a
    kernel call is one of the quadratic model, and its error is numpy's
    broadcast error, never a missing table attribute. *)
Theorem constructed_model_stops_only_on_broadcast
        (a : Init.Args) (log0 log1 : list Event) (m : Model) z k u c log r :
  init a log0 = (Ok m, log1) ->
  __call__ ma m z k u c log = (r, log) ->
  r = Raise broadcast_error /\ _eval m = Bound_eval_quadratic.
Proof.
  intros Hinit H.
  destruct (call_cases m z k u c log) as [[call Hc] | [Hev [Hc | [Hflag [Hnone Hc]]]]];
    rewrite Hc in H.
  - injection H as _ Hlog. now apply log_grows in Hlog.
  - injection H as <-. now split.
  - destruct (constructed_lookup_has_tables TransitModel_init ma a log0 Hinit Hev Hflag)
      as [t Ht].
    congruence.
Qed.

(** X9. A model constructed under the name "chromosphere" or "uniform", or
    with [nldc = 0], evaluates to the same result with the same kernel call
    whatever limb-darkening coefficients it is given. *)
Theorem disc_configurations_ignore_limb_darkening
        (a : Init.Args) (log0 log1 : list Event) (m : Model) :
  init a log0 = (Ok m, log1) ->
  (Init.model a = "chromosphere" \/ Init.model a = "uniform")%string
  \/ Init.nldc a = 0%Z ->
  forall z k u u' c log,
    __call__ ma m z k u c log = __call__ ma m z k u' c log.
Proof.
  intros Hinit Hcfg z k u u' c log.
  apply disc_models_ignore_limb_darkening.
  destruct (init_ok_inv TransitModel_init ma a log0 Hinit) as [base [_ Hbranch]].
  destruct (String.eqb (Init.model a) "chromosphere") eqn:Hchromo.
  { destruct Hbranch as [-> _]. now right. }
  destruct (String.eqb (Init.model a) "uniform" || Z.eqb (Init.nldc a) 0) eqn:Hdisc.
  { destruct Hbranch as [-> _]. now left. }
  exfalso. apply orb_false_iff in Hdisc. destruct Hdisc as [Huni Hzero].
  destruct Hcfg as [[Hc | Hu] | Hn].
  - rewrite Hc in Hchromo. discriminate.
  - rewrite Hu in Huni. discriminate.
  - rewrite Hn in Hzero. discriminate.
Qed.
End EvaluationOutcomes.

(** ** [_eval_quadratic]: what the kernel is handed *)

Section QuadraticArguments.
Import mandelagol.
Variable TransitModel : Type.
Variable TransitModel_init :
  Z -> Z -> value -> Z -> Qc -> bool -> list (string * value) ->
  Result TransitModel.
Variable ma : Backend.

Local Abbreviation init := (__init__ TransitModel_init ma).
Local Abbreviation Model := (MandelAgol TransitModel).
Local Abbreviation finish call :=
  (match answer ma call with
   | Ok flux => ravel_single flux
   | Raise e => Raise e
   end).

(** The call a constructed quadratic model makes once the contamination is
    prepared: the exact kernel when the flag is unset, the lookup kernel on
    the stored tables when it is set; [u] is flattened in both. *)
Lemma constructed_quadratic_call
      (a : Init.Args) (log0 log1 : list Event) (m : Model) z k u c cs log :
  init a log0 = (Ok m, log1) ->
  _eval m = Bound_eval_quadratic ->
  per_passband c (Nat.div (size (ravel (asarray u))) 2) = Ok cs ->
  exists call,
    __call__ ma m z k u c log = (finish call, log ++ [Kernel call])
    /\ ((truthy (interpolate m) = false
         /\ call = CallQuad z k (ravel (asarray u)) cs)
        \/ (exists t,
               truthy (interpolate m) = true /\ interp m = Some t
               /\ call = CallQuadIp z k (ravel (asarray u)) cs
                                    (ed t) (ld t) (le t) (kt t) (zt t))).
Proof.
  intros Hinit Hev Hc.
  pose proof (call_quadratic ma m z k u c log Hev) as Hq. cbv zeta in Hq.
  rewrite Hc in Hq.
  destruct (truthy (interpolate m)) eqn:Hflag.
  - destruct (constructed_lookup_has_tables TransitModel_init ma a log0 Hinit Hev Hflag)
      as [t Ht].
    rewrite Ht in Hq. eexists. split; [exact Hq |]. right. now exists t.
  - eexists. split; [exact Hq |]. now left.
Qed.

(** X10. A constructed quadratic model given a scalar contamination hands
    the kernel one copy of it per passband, the number of passbands being
    half the number of limb-darkening coefficients, rounded down, and hands
    it the coefficients flattened; such an evaluation always reaches the
    kernel. *)
Theorem scalar_contamination_reaches_every_passband
        (a : Init.Args) (log0 log1 : list Event) (m : Model) z k u (c : Qc) log :
  init a log0 = (Ok m, log1) ->
  _eval m = Bound_eval_quadratic ->
  let flat := ravel (asarray u) in
  let npb := Nat.div (size flat) 2 in
  let cs := {| shape := [npb]; data := repeat c npb |} in
  exists call,
    __call__ ma m z k u (AScalar c) log = (finish call, log ++ [Kernel call])
    /\ ((truthy (interpolate m) = false /\ call = CallQuad z k flat cs)
        \/ (exists t,
               truthy (interpolate m) = true /\ interp m = Some t
               /\ call = CallQuadIp z k flat cs (ed t) (ld t) (le t) (kt t) (zt t))).
Proof.
  intros Hinit Hev flat npb cs.
  apply (constructed_quadratic_call a log0 z k u (AScalar c) log Hinit Hev).
  apply scalar_contamination_is_broadcast.
Qed.

(** X11. A constructed quadratic model given a contamination array with
    exactly one element per passband hands that array to the kernel as it
    is, whatever its shape. *)
Theorem matching_contamination_is_passed_as_given
        (a : Init.Args) (log0 log1 : list Event) (m : Model) z k u (c : ndarray) log :
  init a log0 = (Ok m, log1) ->
  _eval m = Bound_eval_quadratic ->
  size c = Nat.div (size (ravel (asarray u))) 2 ->
  exists call,
    __call__ ma m z k u (ANd c) log = (finish call, log ++ [Kernel call])
    /\ ((truthy (interpolate m) = false
         /\ call = CallQuad z k (ravel (asarray u)) c)
        \/ (exists t,
               truthy (interpolate m) = true /\ interp m = Some t
               /\ call = CallQuadIp z k (ravel (asarray u)) c
                                    (ed t) (ld t) (le t) (kt t) (zt t))).
Proof.
  intros Hinit Hev Hsize.
  apply (constructed_quadratic_call a log0 z k u (ANd c) log Hinit Hev).
  unfold per_passband. rewrite Hsize. now rewrite Nat.eqb_refl.
Qed.

(** X12. A quadratic model given a list of contaminations whose length is
    neither 1 nor the number of passbands, the number of passbands not being
    1, raises numpy's broadcast error without calling any kernel. *)
Theorem mismatched_contamination_raises
        (m : Model) z k u (xs : list Qc) log :
  _eval m = Bound_eval_quadratic ->
  let npb := Nat.div (size (ravel (asarray u))) 2 in
  List.length xs <> npb -> List.length xs <> 1%nat -> npb <> 1%nat ->
  __call__ ma m z k u (AList xs) log = (Raise broadcast_error, log).
Proof.
  intros Hev npb Hn H1 Hp.
  pose proof (call_quadratic ma m z k u (AList xs) log Hev) as Hq. cbv zeta in Hq.
  fold npb in Hq.
  assert (Hc : per_passband (AList xs) npb = Raise broadcast_error).
  { unfold per_passband, mul_ones. simpl.
    apply Nat.eqb_neq in Hn, H1, Hp. now rewrite Hn, H1, Hp. }
  now rewrite Hc in Hq.
Qed.
End QuadraticArguments.

(** ** The presets, from construction to evaluation *)

Section Presets.
Import mandelagol.
Variable TransitModel : Type.
Variable TransitModel_init :
  Z -> Z -> value -> Z -> Qc -> bool -> list (string * value) ->
  Result TransitModel.
Variable ma : Backend.

Local Abbreviation Model := (MandelAgol TransitModel).

(** X13. A model built by [MAUniform] answers every call with
    [ma.eval_uniform(z, k, c)], reshaped by line 135; the coefficients [u]
    play no part and no table is ever built. *)
Theorem MAUniform_model_calls_eval_uniform
        nthr supersampling exptime eclipse log0 log1 (m : Model) :
  MAUniform__init__ TransitModel_init ma nthr supersampling exptime eclipse log0
  = (Ok m, log1) ->
  forall z k u c log,
    __call__ ma m z k u c log
    = (match eval_uniform ma z k c with
       | Ok flux => ravel_single flux
       | Raise e => Raise e
       end, log ++ [Kernel (CallUniform z k c)]).
Proof.
  intros H z k u c log.
  destruct (MAUniform_binds_uniform TransitModel_init ma _ _ _ _ log0 H) as [Hev _].
  now apply call_uniform.
Qed.

(** X14. On a model built by [MAChromosphere], [MAChromosphere.__call__]
    returns the answer of [ma.eval_chromosphere(z, k, c)] as it comes, shape
    included, where the inherited [MandelAgol.__call__] would flatten a
    single row and fail on a 0-d answer. *)
Theorem MAChromosphere_call_keeps_the_answer
        nthr supersampling exptime log0 log1 (m : Model) :
  MAChromosphere__init__ TransitModel_init ma nthr supersampling exptime log0
  = (Ok m, log1) ->
  forall z k u c log,
    MAChromosphere__call__ ma m z k c log
    = (eval_chromosphere ma z k c, log ++ [Kernel (CallChromosphere z k c)])
    /\ __call__ ma m z k u c log
       = (match eval_chromosphere ma z k c with
          | Ok flux => ravel_single flux
          | Raise e => Raise e
          end, log ++ [Kernel (CallChromosphere z k c)]).
Proof.
  intros H z k u c log.
  destruct (MAChromosphere_binds_chromosphere TransitModel_init ma _ _ _ log0 H)
    as [Hev _].
  split.
  - now apply MAChromosphere_call.
  - now apply call_chromosphere.
Qed.
End Presets.

(** ** [QPower2Model]: every way an evaluation ends *)

Section QPower2Outcomes.
Import qpower2.
Variable qpower2_model :
  ndarray -> ndarray -> ndarray -> ndarray -> ndarray -> ndarray ->
  ndarray -> ndarray -> ndarray -> ndarray -> Result ndarray.

Local Abbreviation kernel self t pvp ldc :=
  (qpower2_model t pvp ldc (lcids self) (pbids self) (nsamples self)
                 (exptimes self) (_es self) (_ms self) (_tae self)).
Local Abbreviation kernel_event self t pvp ldc :=
  (Kernel t pvp ldc (lcids self) (pbids self) (nsamples self)
          (exptimes self) (_es self) (_ms self) (_tae self)).

Lemma squeeze_drops_unit_axes (f : ndarray) : ~ In 1%nat (shape (squeeze f)).
Proof.
  unfold squeeze. simpl. intros H. apply filter_In in H.
  destruct H as [_ H]. discriminate H.
Qed.

Lemma squeeze_keeps_size (f : ndarray) : size (squeeze f) = size f.
Proof.
  unfold size, squeeze. simpl. induction (shape f) as [| d rest IH]; [reflexivity |].
  simpl. destruct (Nat.eqb d 1) eqn:E; simpl.
  - apply Nat.eqb_eq in E. subst d. rewrite IH. lia.
  - now rewrite IH.
Qed.

Lemma qpower2_log_grows (log : list Event) (ev : Event) : log ++ [ev] <> log.
Proof.
  intros H. apply (f_equal (@List.length Event)) in H.
  rewrite length_app in H. simpl in H. lia.
Qed.

(** The two ways [evaluate_pv] goes. *)
Lemma evaluate_pv_cases (self : QPower2Model) (pvp ldc : ndarray) (log : list Event) :
  (time self = None
   /\ evaluate_pv qpower2_model self pvp ldc log
      = (Raise (AssertionError not_configured), log))
  \/ (exists t,
         time self = Some t
         /\ evaluate_pv qpower2_model self pvp ldc log
            = (match kernel self t pvp ldc with
               | Ok flux => Ok (squeeze flux)
               | Raise e => Raise e
               end, log ++ [kernel_event self t pvp ldc])).
Proof.
  destruct (time self) as [t |] eqn:Ht.
  - right. exists t. split; [reflexivity |]. now apply evaluate_pv_with_data.
  - left. split; [reflexivity |].
    unfold evaluate_pv. apply bind_raise. now apply assert_time_unset.
Qed.

(** X15. A flux returned by [evaluate_pv] comes from exactly one kernel
    call on the stored time and index arrays; it has the kernel's elements in
    the kernel's order and as many of them, and every axis of length 1 is
    gone, not only the leading one. *)
Theorem evaluate_returns_the_squeezed_kernel_flux
        (self : QPower2Model) (pvp ldc : ndarray) (log log' : list Event)
        (flux : ndarray) :
  evaluate_pv qpower2_model self pvp ldc log = (Ok flux, log') ->
  exists t f,
    time self = Some t
    /\ kernel self t pvp ldc = Ok f
    /\ log' = log ++ [kernel_event self t pvp ldc]
    /\ data flux = data f
    /\ size flux = size f
    /\ shape flux = filter (fun d => negb (Nat.eqb d 1)) (shape f)
    /\ ~ In 1%nat (shape flux).
Proof.
  intros H.
  destruct (evaluate_pv_cases self pvp ldc log) as [[_ Hc] | [t [Ht Hc]]];
    rewrite Hc in H; [discriminate |].
  injection H as Hr <-.
  destruct (kernel self t pvp ldc) as [f | e] eqn:Hk; [| discriminate].
  injection Hr as <-. exists t, f.
  repeat split; try reflexivity; try assumption.
  - apply squeeze_keeps_size.
  - apply squeeze_drops_unit_axes.
Qed.

(** X16. [evaluate_pv] fails in two ways only: with the assertion error,
    before any kernel call, when the time array is not set; or, after its one
    kernel call, with the exception the kernel raised. *)
Theorem evaluate_fails_unconfigured_or_with_the_kernel
        (self : QPower2Model) (pvp ldc : ndarray) (log log' : list Event)
        (e : Exn) :
  evaluate_pv qpower2_model self pvp ldc log = (Raise e, log') ->
  (time self = None /\ e = AssertionError not_configured /\ log' = log)
  \/ (exists t,
         time self = Some t
         /\ kernel self t pvp ldc = Raise e
         /\ log' = log ++ [kernel_event self t pvp ldc]).
Proof.
  intros H.
  destruct (evaluate_pv_cases self pvp ldc log) as [[Hn Hc] | [t [Ht Hc]]];
    rewrite Hc in H.
  - injection H as <- <-. left. now repeat split.
  - injection H as Hr <-. right. exists t.
    destruct (kernel self t pvp ldc) as [f | e'] eqn:Hk; [discriminate |].
    injection Hr as <-. now repeat split.
Qed.

End QPower2Outcomes.

(** ** The properties above on the stand-ins *)

Lemma init_passes_on_collaborator_errors_witness :
  mandelagol.__init__ standin.failing_init standin.ma mandelagol.Init.defaults []
  = (Raise (BackendError "TransitModel"), [mandelagol.SuperInit])
  /\ mandelagol.__init__ standin.TransitModel_init standin.ma_without_tables
       (mandelagol.Init.set_interpolate (VBool true) mandelagol.Init.defaults) []
     = (Raise (BackendError "tables"), standin.table_log).
Proof.
  split.
  - destruct (init_passes_on_collaborator_errors standin.failing_init standin.ma
                mandelagol.Init.defaults [] (BackendError "TransitModel"))
      as [Hbase _].
    + simpl. tauto.
    + now right.
    + now apply Hbase.
  - destruct (init_passes_on_collaborator_errors standin.TransitModel_init
                standin.ma_without_tables
                (mandelagol.Init.set_interpolate (VBool true) mandelagol.Init.defaults)
                [] (BackendError "tables"))
      as [_ Htables].
    + simpl. tauto.
    + now right.
    + now apply (Htables tt).
Defined.

Lemma lerp_keyword_sets_the_flag_witness :
  truthy (mandelagol.interpolate standin.lookup_model)
  = truthy (VBool false)
    || truthy (dict_get [("lerp"%string, VBool true)] "lerp" (VBool false)).
Proof.
  apply (lerp_keyword_sets_the_flag standin.TransitModel_init standin.ma
           (mandelagol.Init.set_kwargs [("lerp"%string, VBool true)]
              mandelagol.Init.defaults)
           [] (log1 := standin.table_log)).
  reflexivity.
Defined.

Lemma call_returns_the_kernel_answer_witness :
  exists call f d0 rest,
    [mandelagol.Kernel
       (mandelagol.CallUniform (AList [standin.two; standin.two]) standin.tenth
                               (AScalar 0))]
    = [] ++ [mandelagol.Kernel call]
    /\ mandelagol.answer standin.ma call = Ok f
    /\ shape f = d0 :: rest
    /\ {| shape := [2%nat]; data := [1; 1] |}
       = (if Nat.eqb d0 1 then ravel f else f)
    /\ data {| shape := [2%nat]; data := [1; 1] |} = data f.
Proof.
  apply (call_returns_the_kernel_answer standin.ma standin.uniform_model
           (AList [standin.two; standin.two]) standin.tenth (AList [])
           (AScalar 0) []).
  reflexivity.
Defined.

Lemma call_failure_after_the_kernel_witness :
  (mandelagol.answer standin.ma_raising
     (mandelagol.CallUniform (AList [0]) standin.tenth (AScalar 0))
   = Raise (BackendError "kernel")
   \/ exists f,
       mandelagol.answer standin.ma_raising
         (mandelagol.CallUniform (AList [0]) standin.tenth (AScalar 0)) = Ok f
       /\ shape f = [] /\ BackendError "kernel" = IndexError "tuple index out of range")
  /\ (mandelagol.answer standin.ma_point
        (mandelagol.CallUniform (AList [0]) standin.tenth (AScalar 0))
      = Raise (IndexError "tuple index out of range")
      \/ exists f,
          mandelagol.answer standin.ma_point
            (mandelagol.CallUniform (AList [0]) standin.tenth (AScalar 0)) = Ok f
          /\ shape f = []
          /\ IndexError "tuple index out of range"
             = IndexError "tuple index out of range").
Proof.
  split.
  - apply (call_failure_after_the_kernel standin.ma_raising standin.uniform_model
             (AList [0]) standin.tenth (AList []) (AScalar 0) []).
    reflexivity.
  - apply (call_failure_after_the_kernel standin.ma_point standin.uniform_model
             (AList [0]) standin.tenth (AList []) (AScalar 0) []).
    reflexivity.
Defined.

Lemma constructed_model_stops_only_on_broadcast_witness :
  Raise broadcast_error = Raise (A := ndarray) broadcast_error
  /\ mandelagol._eval standin.quadratic_model = mandelagol.Bound_eval_quadratic.
Proof.
  apply (constructed_model_stops_only_on_broadcast standin.TransitModel_init
           standin.ma mandelagol.Init.defaults [] (log1 := [mandelagol.SuperInit])
           (m := standin.quadratic_model)
           (AList [0]) standin.tenth (AList [0; 0; 0; 0]) (AList [0; 0; 0])
           (log := [])).
  - reflexivity.
  - reflexivity.
Defined.

Lemma disc_configurations_ignore_limb_darkening_witness :
  mandelagol.__call__ standin.ma standin.uniform_model (AList [0; 1]) standin.tenth
    (AList []) (AScalar 0) []
  = mandelagol.__call__ standin.ma standin.uniform_model (AList [0; 1]) standin.tenth
      (AList [standin.third; standin.tenth]) (AScalar 0) [].
Proof.
  apply (disc_configurations_ignore_limb_darkening standin.TransitModel_init
           standin.ma (mandelagol.Init.set_nldc 0 mandelagol.Init.defaults) []
           (log1 := [mandelagol.SuperInit])).
  - reflexivity.
  - now right.
Defined.

Lemma scalar_contamination_reaches_every_passband_witness :
  exists call,
    mandelagol.__call__ standin.ma standin.quadratic_model (AList [0; 1])
      standin.tenth (AList [standin.third; standin.tenth; 0; 0])
      (AScalar standin.half) []
    = (match mandelagol.answer standin.ma call with
       | Ok flux => mandelagol.ravel_single flux
       | Raise e => Raise e
       end, [] ++ [mandelagol.Kernel call])
    /\ mandelagol.kernel_of call = mandelagol.K_eval_quad
    /\ mandelagol.tables_passed call = None.
Proof.
  destruct (scalar_contamination_reaches_every_passband standin.TransitModel_init
              standin.ma mandelagol.Init.defaults []
              (log1 := [mandelagol.SuperInit]) (m := standin.quadratic_model)
              (AList [0; 1]) standin.tenth
              (AList [standin.third; standin.tenth; 0; 0]) standin.half []
              eq_refl eq_refl)
    as [call [Hcall [[_ Heq] | [t [Hflag _]]]]].
  - exists call. split; [exact Hcall |]. rewrite Heq. now split.
  - discriminate Hflag.
Defined.

Lemma matching_contamination_is_passed_as_given_witness :
  exists call,
    mandelagol.__call__ standin.ma standin.lookup_model (AList [0; 1])
      standin.tenth (AList [standin.third; standin.tenth])
      (ANd {| shape := [1; 1]%nat; data := [standin.half] |}) []
    = (match mandelagol.answer standin.ma call with
       | Ok flux => mandelagol.ravel_single flux
       | Raise e => Raise e
       end, [] ++ [mandelagol.Kernel call])
    /\ mandelagol.kernel_of call = mandelagol.K_eval_quad_ip.
Proof.
  destruct (matching_contamination_is_passed_as_given standin.TransitModel_init
              standin.ma
              (mandelagol.Init.set_interpolate (VBool true) mandelagol.Init.defaults)
              [] (log1 := standin.table_log) (m := standin.lookup_model)
              (AList [0; 1]) standin.tenth
              (AList [standin.third; standin.tenth])
              {| shape := [1; 1]%nat; data := [standin.half] |} []
              eq_refl eq_refl eq_refl)
    as [call [Hcall [[Hflag _] | [t [_ [_ Heq]]]]]].
  - discriminate Hflag.
  - exists call. split; [exact Hcall |]. now rewrite Heq.
Defined.

Lemma mismatched_contamination_raises_witness :
  mandelagol.__call__ standin.ma standin.quadratic_model (AList [0; 1])
    standin.tenth (AList [standin.third; standin.tenth; 0; 0])
    (AList [0; 0; 0]) []
  = (Raise broadcast_error, []).
Proof.
  apply (mismatched_contamination_raises standin.ma standin.quadratic_model
           (AList [0; 1]) standin.tenth
           (AList [standin.third; standin.tenth; 0; 0]) [0; 0; 0] []);
    [reflexivity | simpl; discriminate | simpl; discriminate | simpl; discriminate].
Defined.

Lemma MAUniform_model_calls_eval_uniform_witness :
  mandelagol.__call__ standin.ma standin.uniform_model (AList [0; 1])
    standin.tenth (AList [standin.third]) (AScalar 0) []
  = (match mandelagol.eval_uniform standin.ma (AList [0; 1]) standin.tenth
                                   (AScalar 0) with
     | Ok flux => mandelagol.ravel_single flux
     | Raise e => Raise e
     end,
     [] ++ [mandelagol.Kernel
              (mandelagol.CallUniform (AList [0; 1]) standin.tenth (AScalar 0))]).
Proof.
  apply (MAUniform_model_calls_eval_uniform standin.TransitModel_init standin.ma
           0%Z 1%Z standin.tenth false [] (log1 := [mandelagol.SuperInit])).
  reflexivity.
Defined.

Lemma MAChromosphere_call_keeps_the_answer_witness :
  mandelagol.MAChromosphere__call__ standin.ma_point standin.chromosphere_model
    (AList [0]) standin.tenth (AScalar 0) []
  = (Ok standin.point_flux,
     [] ++ [mandelagol.Kernel
              (mandelagol.CallChromosphere (AList [0]) standin.tenth (AScalar 0))])
  /\ mandelagol.__call__ standin.ma_point standin.chromosphere_model
       (AList [0]) standin.tenth (AList []) (AScalar 0) []
     = (Raise (IndexError "tuple index out of range"),
        [] ++ [mandelagol.Kernel
                 (mandelagol.CallChromosphere (AList [0]) standin.tenth (AScalar 0))]).
Proof.
  apply (MAChromosphere_call_keeps_the_answer standin.TransitModel_init
           standin.ma_point 0%Z 1%Z standin.tenth []
           (log1 := [mandelagol.SuperInit]) (m := standin.chromosphere_model)
           eq_refl (AList [0]) standin.tenth (AList []) (AScalar 0) []).
Defined.

Lemma evaluate_returns_the_squeezed_kernel_flux_witness :
  exists t f,
    qpower2.time standin.with_data = Some t
    /\ standin.qpower2_model t (array2 [[standin.tenth; 0; 1; 1; 1; 0; 0]]) (ones 2)
         (qpower2.lcids standin.with_data) (qpower2.pbids standin.with_data)
         (qpower2.nsamples standin.with_data) (qpower2.exptimes standin.with_data)
         (qpower2._es standin.with_data) (qpower2._ms standin.with_data)
         (qpower2._tae standin.with_data) = Ok f
    /\ shape f = [1; 3]%nat
    /\ shape {| shape := [3%nat]; data := [1; 1; 1] |}
       = filter (fun d => negb (Nat.eqb d 1)) (shape f).
Proof.
  destruct (evaluate_returns_the_squeezed_kernel_flux standin.qpower2_model
              standin.with_data (array2 [[standin.tenth; 0; 1; 1; 1; 0; 0]])
              (ones 2) []
              (flux := {| shape := [3%nat]; data := [1; 1; 1] |})
              eq_refl)
    as [t [f [Ht [Hk [_ [_ [_ [Hshape _]]]]]]]].
  exists t, f. injection Ht as <-.
  split; [reflexivity |]. split; [exact Hk |].
  split; [| exact Hshape].
  vm_compute in Hk. now injection Hk as <-.
Defined.

Lemma evaluate_fails_unconfigured_or_with_the_kernel_witness :
  (qpower2.time standin.fresh = None
   /\ AssertionError qpower2.not_configured = AssertionError qpower2.not_configured
   /\ @nil qpower2.Event = [])
  \/ (exists t,
         qpower2.time standin.fresh = Some t
         /\ standin.qpower2_model t (ones 7) (ones 2)
              (qpower2.lcids standin.fresh) (qpower2.pbids standin.fresh)
              (qpower2.nsamples standin.fresh) (qpower2.exptimes standin.fresh)
              (qpower2._es standin.fresh) (qpower2._ms standin.fresh)
              (qpower2._tae standin.fresh)
            = Raise (AssertionError qpower2.not_configured)
         /\ [] = [] ++ [qpower2.Kernel t (ones 7) (ones 2)
                          (qpower2.lcids standin.fresh) (qpower2.pbids standin.fresh)
                          (qpower2.nsamples standin.fresh)
                          (qpower2.exptimes standin.fresh)
                          (qpower2._es standin.fresh) (qpower2._ms standin.fresh)
                          (qpower2._tae standin.fresh)]).
Proof.
  apply (evaluate_fails_unconfigured_or_with_the_kernel standin.qpower2_model
           standin.fresh (ones 7) (ones 2) []).
  reflexivity.
Defined.
